(** * oteapi-dlite-plugin: the generate strategy

    A shallow embedding of [DLiteGenerateStrategy.get]
    (src/oteapi_dlite/strategies/generate.py) together with the
    collaborators it calls, and the properties of it that the
    specification states.

    [get] is stateful (file system, data cache, DLite collection store,
    triplestore) and fallible (Python exceptions), so it is embedded in a
    state monad whose computations return either a value or a raised
    exception, keeping the state reached when the exception was raised. *)

From Stdlib Require Import Ascii String List Bool Lia NArith ZArith.
From Stdlib Require Import HexadecimalString HexadecimalN HexadecimalFacts.
From stdpp Require Import base option list gmap strings.

Local Open Scope string_scope.
Local Open Scope list_scope.

(** ** Exceptions *)

(** The exceptions raised by the statements of [get] carry their Python
    class; the failures of collaborators whose code is outside
    generate.py carry the name the specification gives them (section 7). *)
Inductive exn : Type :=
| ValueError (msg : string)            (* generate.py:239 *)
| KeyError (msg : string)              (* generate.py:261, and dict subscripts *)
| KBError (msg : string)               (* generate.py:318; subclass of ValueError *)
| StopIteration                        (* next() on an exhausted iterator *)
| NameError (name : string)            (* a name bound neither locally nor globally *)
| AttributeError (attr : string)       (* attribute looked up on None *)
| FileNotFoundError (path : string)    (* open() of a missing file *)
| NotFoundError (what : string)        (* collaborator: label or collection id absent *)
| UnsupportedMediaTypeError (mt : string)
| ConfigurationError                   (* collaborator: neither driver nor media type *)
| PersistenceError (what : string)     (* collaborator: storage driver failure *)
| ServiceError (what : string).        (* collaborator: knowledge-graph client failure *)

Inductive Result (A : Type) : Type :=
| Ok (a : A)
| Raise (e : exn).
Arguments Ok {A} a.
Arguments Raise {A} e.

Definition raised {A} (r : Result A) : bool :=
  match r with Ok _ => false | Raise _ => true end.

(** ** Python values *)

Definition bytes := list Byte.byte.

(** Truth value of an [Optional[str]]: [None] and the empty string are
    false. *)
Definition truthy (o : option string) : bool :=
  match o with
  | Some s => negb (String.eqb s "")
  | None => false
  end.

(** The string held by an [Optional[str]] that tested true. *)
Definition the (o : option string) : string := default "" o.

(** A Python dict with string keys keeps insertion order. *)
Definition dict (V : Type) := list (string * V).

Definition dict_get {V} (d : dict V) (k : string) : option V :=
  snd <$> List.find (fun kv => String.eqb (fst kv) k) d.

Definition truthy_dict {V} (o : option (dict V)) : bool :=
  match o with
  | Some (_ :: _) => true
  | _ => false
  end.

(** Values found in the dicts returned by the knowledge-graph client. *)
#[warnings="-register-all"]
Inductive pyval : Type :=
| PNone
| PStr (s : string)
| PDict (d : list (string * pyval)).

(** [d.get(k, {})] *)
Definition get_or_empty (v : pyval) (k : string) : Result pyval :=
  match v with
  | PDict d => Ok (default (PDict []) (dict_get d k))
  | _ => Raise (AttributeError "get")
  end.

(** [d.get(k)] *)
Definition get_or_none (v : pyval) (k : string) : Result pyval :=
  match v with
  | PDict d => Ok (default PNone (dict_get d k))
  | _ => Raise (AttributeError "get")
  end.

(** [d[k]] *)
Definition subscript (v : pyval) (k : string) : Result pyval :=
  match v with
  | PDict d =>
      match dict_get d k with
      | Some x => Ok x
      | None => Raise (KeyError k)
      end
  | _ => Raise (AttributeError "__getitem__")
  end.

Definition truthy_val (v : pyval) : bool :=
  match v with
  | PNone => false
  | PStr s => negb (String.eqb s "")
  | PDict d => match d with [] => false | _ => true end
  end.

(** ** Data model *)

(** A typed instance: its identity, the URI of its datamodel
    ([inst.meta.uri]) and its property values. *)
Record Instance : Type := {
  inst_uuid : string;
  inst_meta : string;
  inst_properties : dict string
}.

(** A collection: labelled instances and relation triples. *)
Record Collection : Type := {
  uuid : string;
  instances : gmap string Instance;
  relations : list (string * string * string)
}.

(** What [get] binds to [inst]: an instance of the collection or a
    collection (a DLite collection is itself an instance). *)
Inductive Artifact : Type :=
| AnInstance (i : Instance)
| ACollection (c : Collection).

Definition collection_meta : string :=
  "http://onto-ns.com/meta/0.1/Collection".

(** [inst.meta.uri] *)
Definition meta_uri (a : Artifact) : string :=
  match a with
  | AnInstance i => inst_meta i
  | ACollection _ => collection_meta
  end.

Record DataCacheConfig : Type := {
  accessKey : option string
}.

(** [DLiteStorageConfig], generate.py:32-168, with the defaults of the
    class in [default_config]. *)
Record DLiteStorageConfig : Type := {
  driver : option string;
  mediaType : option string;
  options : option string;
  location : option string;
  label : option string;
  datamodel : option string;
  store_collection : bool;
  store_collection_id : option string;
  allow_incomplete : option bool;
  collection_id : option string;
  datacache_config : option DataCacheConfig;
  kb_document_iri : option string;
  kb_document_context : option (dict string);
  kb_document_computation : option string
}.

Definition default_config : DLiteStorageConfig := {|
  driver := None;
  mediaType := None;
  options := None;
  location := None;
  label := None;
  datamodel := None;
  store_collection := false;
  store_collection_id := None;
  allow_incomplete := Some false;
  collection_id := None;
  datacache_config := None;
  kb_document_iri := None;
  kb_document_context := None;
  kb_document_computation := None
|}.

(** The session dictionary passed between pipeline steps: the id of the
    session's collection and named settings. *)
Record Session : Type := {
  session_collection_id : option string;
  session_settings : gmap string (dict string)
}.

(** [DLiteSessionUpdate(collection_id=...)] *)
Record DLiteSessionUpdate : Type := {
  update_collection_id : string
}.

(** The resource description documented in the knowledge base,
    generate.py:272-290. *)
Record Resource : Type := {
  downloadUrl : option string;
  res_mediaType : string;
  res_metadata : string;
  res_driver : option string;
  res_options : option string
}.

(** Calls received by the knowledge-graph client, in order. *)
Inductive KBEvent : Type :=
| Connect (settings : dict string)
| SaveContainer (r : Resource) (iri : string)
| AddTriple (s p o : string)
| Restrictions (cls property : string)
| LoadContainer (iri : option string)
| Close.

(** ** The state [get] acts on *)

Record World : Type := {
  files : gmap string bytes;            (* file system: path to content *)
  datacache : gmap string bytes;        (* oteapi DataCache: key to value *)
  collections : gmap string Collection; (* live collections by id *)
  kb : list KBEvent                     (* knowledge-graph client calls *)
}.

Definition set_files (f : gmap string bytes → gmap string bytes) (w : World) : World :=
  {| files := f (files w); datacache := datacache w;
     collections := collections w; kb := kb w |}.

Definition set_datacache (f : gmap string bytes → gmap string bytes) (w : World) : World :=
  {| files := files w; datacache := f (datacache w);
     collections := collections w; kb := kb w |}.

Definition set_collections (f : gmap string Collection → gmap string Collection)
    (w : World) : World :=
  {| files := files w; datacache := datacache w;
     collections := f (collections w); kb := kb w |}.

Definition log (ev : KBEvent) (w : World) : World :=
  {| files := files w; datacache := datacache w;
     collections := collections w; kb := kb w ++ [ev] |}.

(** ** Computations *)

(** A computation runs from a world and yields a value or a raised
    exception, and the world it reached: what was written before an
    exception stays written. *)
Definition M (A : Type) : Type := World → Result A * World.

Definition ret {A} (a : A) : M A := fun w => (Ok a, w).

Definition raise {A} (e : exn) : M A := fun w => (Raise e, w).

Definition bind {A B} (m : M A) (k : A → M B) : M B :=
  fun w =>
    match m w with
    | (Ok a, w') => k a w'
    | (Raise e, w') => (Raise e, w')
    end.

Definition lift {A} (r : Result A) : M A := fun w => (r, w).

Declare Scope py_scope.
Delimit Scope py_scope with py.
Notation "x <- m ;; k" := (bind m (fun x => k))
  (at level 100, m at next level, right associativity) : py_scope.
Notation "m ;;; k" := (bind m (fun _ => k))
  (at level 100, right associativity) : py_scope.
Local Open Scope py_scope.

(** [try: body finally: handler]. The handler always runs; an exception
    it raises replaces the outcome of the body. *)
Definition try_finally {A} (body : M A) (handler : M unit) : M A :=
  fun w =>
    let '(r, w1) := body w in
    match handler w1 with
    | (Ok _, w2) => (r, w2)
    | (Raise e, w2) => (Raise e, w2)
    end.

(** [for x in xs: body] *)
Fixpoint for_each {A} (xs : list A) (body : A → M unit) : M unit :=
  match xs with
  | [] => ret tt
  | x :: rest => body x ;;; for_each rest body
  end.

(** [next(it)] on an iterator that will produce [xs]. *)
Definition next {A} (xs : list A) : M A :=
  match xs with
  | x :: _ => ret x
  | [] => raise StopIteration
  end.

(** ** Name resolution in generate.py *)

(** Names bound at module level when [get] runs: the imports of lines
    4-18, taken to have succeeded, and the constants and classes of
    generate.py. *)
Definition module_names : list string :=
  [ "tempfile"; "TYPE_CHECKING"; "Annotated"; "Optional"; "DataCache";
    "AttrDict"; "DataCacheConfig"; "FunctionConfig"; "Field"; "dataclass";
    "DLiteSessionUpdate"; "get_collection"; "get_driver"; "get_settings";
    "update_collection"; "hasInput"; "KBError"; "DLiteStorageConfig";
    "DLiteGenerateConfig"; "DLiteGenerateStrategy" ].

(** Names assigned somewhere in the body of [get]: these are its local
    variables. Every other name is looked up among the module's names
    (none of the names at stake is a builtin). *)
Definition local_names : list string :=
  [ "self"; "session"; "config"; "cacheconfig"; "driver"; "coll"; "inst";
    "instances"; "key"; "cache"; "tmpdir"; "f"; "kb_settings";
    "Triplestore"; "save_container"; "resource"; "ts"; "prop"; "val";
    "restrictions"; "r"; "indv"; "d"; "metaid" ].

(** Evaluating a name that is not local to [get]. *)
Definition load_global (name : string) : M unit :=
  if bool_decide (name ∈ module_names) then ret tt else raise (NameError name).

Definition hasInput : string :=
  "https://w3id.org/emmo#EMMO_36e69413_8c59_4799_946c_10b05d266e22".

(** ** Collaborators *)

(** What the world outside generate.py answers: the media-type table of
    the driver resolver, the storage plugins, the mapping engine, the
    temporary-directory names and the knowledge-graph service. *)
Record Env : Type := {
  mediatypes : dict string;
  fresh_uuid : string;
  get_instances : Collection → string → bool → option bool → list Instance;
  plugin_dump : string → option string → Artifact → Result bytes;
  mkdtemp : string;
  kb_connect : dict string → option exn;
  kb_save_container : Resource → string → option exn;
  kb_add : string → string → string → option exn;
  kb_restrictions : string → string → Result (list pyval);
  kb_load_container : option string → Result pyval;
  kb_close : option exn
}.

Definition outcome (o : option exn) : Result unit :=
  match o with
  | Some e => Raise e
  | None => Ok tt
  end.

(** Removal of a directory tree: every file below [dir] goes. *)
Definition rmtree (dir : string) (fs : gmap string bytes) : gmap string bytes :=
  filter (fun kv => String.prefix (dir +:+ "/") (fst kv) = false) fs.

Record DLiteGenerateConfig : Type := {
  configuration : DLiteStorageConfig
}.

Record DLiteGenerateStrategy : Type := {
  generate_config : DLiteGenerateConfig
}.

Section Strategy.

Context (E : Env).

(** *** oteapi_dlite.utils *)

(** Modelled from the spec: [get_driver] of oteapi_dlite/utils/utils.py,
    which is not among the sources. Section 4.2: look the media type up
    in a fixed table, fail with UnsupportedMediaTypeError if it is
    absent, and with ConfigurationError if there is no media type. *)
Definition get_driver (mediaType : option string) : Result string :=
  if truthy mediaType then
    match dict_get (mediatypes E) (the mediaType) with
    | Some d => Ok d
    | None => Raise (UnsupportedMediaTypeError (the mediaType))
    end
  else Raise ConfigurationError.

Definition lookup_collection (id : string) : M Collection :=
  fun w =>
    match collections w !! id with
    | Some c => (Ok c, w)
    | None => (Raise (NotFoundError id), w)
    end.

(** Modelled from the spec: [get_collection] of
    oteapi_dlite/utils/utils.py, which is not among the sources.
    Section 4.1: with an id, the existing collection of that id or
    NotFoundError; without, the collection of the session, created if
    the session has none. *)
Definition get_collection (session : option Session) (id : option string)
    : M Collection :=
  match id with
  | Some i => lookup_collection i
  | None =>
      match session ≫= session_collection_id with
      | Some i => lookup_collection i
      | None =>
          fun w =>
            let c := {| uuid := fresh_uuid E; instances := ∅; relations := [] |} in
            (Ok c, set_collections (insert (uuid c) c) w)
      end
  end.

(** Modelled from the spec: [update_collection] of
    oteapi_dlite/utils/utils.py, which is not among the sources.
    Section 4.1: publish the collection so that later steps see it. *)
Definition update_collection (coll : Collection) : M unit :=
  fun w => (Ok tt, set_collections (insert (uuid coll) coll) w).

(** Modelled from the spec: [get_settings] of
    oteapi_dlite/utils/utils.py, which is not among the sources.
    Sections 4.5 and 6: the named settings of the session, if any. *)
Definition get_settings (session : option Session) (name : string)
    : option (dict string) :=
  session ≫= fun s => session_settings s !! name.

(** *** DLite *)

(** [coll[label]] *)
Definition getitem (coll : Collection) (label : string) : M Artifact :=
  match instances coll !! label with
  | Some i => ret (AnInstance i)
  | None => raise (NotFoundError label)
  end.

(** Modelled from the spec: [Collection.copy(newid=...)] of DLite.
    Section 4.3: a copy with the same content under the new id. The
    copy is a live collection of its own. *)
Definition copy (coll : Collection) (newid : string) : M Artifact :=
  fun w =>
    let c := {| uuid := newid; instances := instances coll;
                relations := relations coll |} in
    (Ok (ACollection c), set_collections (insert newid c) w).

(** [inst.save(driver, location, options)]: the storage plugin named
    [driver] serialises the instance and the result is written to
    [location]. The file system is flat: a path is written whether or
    not a directory of its prefix was ever created. *)
Definition save (inst : Artifact) (driver location : string)
    (options : option string) : M unit :=
  fun w =>
    match plugin_dump E driver options inst with
    | Ok b => (Ok tt, set_files (insert location b) w)
    | Raise e => (Raise e, w)
    end.

(** *** Python standard library and oteapi *)

(** [with open(path, "rb") as f: f.read()] *)
Definition read_file (path : string) : M bytes :=
  fun w =>
    match files w !! path with
    | Some b => (Ok b, w)
    | None => (Raise (FileNotFoundError path), w)
    end.

(** [DataCache().add(value, key=key)] *)
Definition cache_add (value : bytes) (key : string) : M unit :=
  fun w => (Ok tt, set_datacache (insert key value) w).

(** [with tempfile.TemporaryDirectory() as tmpdir: body]: the directory
    and all below it are removed when the block is left, by return or
    by exception. *)
Definition with_TemporaryDirectory {A} (body : string → M A) : M A :=
  fun w =>
    let tmpdir := mkdtemp E in
    let '(r, w') := body tmpdir w in
    (r, set_files (rmtree tmpdir) w').

(** *** tripper *)

(** The constructor [Triplestore], called with the settings as
    keyword arguments: a connection exists once it has returned. *)
Definition Triplestore (kb_settings : dict string) : M unit :=
  fun w =>
    match kb_connect E kb_settings with
    | Some e => (Raise e, w)
    | None => (Ok tt, log (Connect kb_settings) w)
    end.

Definition save_container (resource : Resource) (iri : string) : M unit :=
  fun w => (outcome (kb_save_container E resource iri),
            log (SaveContainer resource iri) w).

Definition ts_add (s p o : string) : M unit :=
  fun w => (outcome (kb_add E s p o), log (AddTriple s p o) w).

Definition ts_restrictions (cls property : string) : M (list pyval) :=
  fun w => (kb_restrictions E cls property, log (Restrictions cls property) w).

Definition load_container (iri : option string) : M pyval :=
  fun w => (kb_load_container E iri, log (LoadContainer iri) w).

Definition ts_close : M unit :=
  fun w => (outcome (kb_close E), log Close w).

(** *** The statements of [get] *)

(** generate.py:216-220 *)
Definition resolve_driver (config : DLiteStorageConfig) : M string :=
  if truthy (driver config) then ret (the (driver config))
  else lift (get_driver (mediaType config)).

(** generate.py:224-241 *)
Definition select (config : DLiteStorageConfig) (coll : Collection) : M Artifact :=
  if truthy (label config) then
    getitem coll (the (label config))
  else if truthy (datamodel config) then
    let instances :=
      get_instances E coll (the (datamodel config)) true (allow_incomplete config) in
    inst <- next instances ;;
    ret (AnInstance inst)
  else if store_collection config then
    if truthy (store_collection_id config) then
      copy coll (the (store_collection_id config))
    else
      ret (ACollection coll)
  else
    raise (ValueError
             "One of `label` or `datamodel` configurations should be given.").

(** generate.py:247-250 *)
Definition cache_key (cacheconfig : option DataCacheConfig) : string :=
  match cacheconfig with
  | Some c => if truthy (accessKey c) then the (accessKey c) else "generate_data"
  | None => "generate_data"
  end.

(** generate.py:244-255. On line 253 the path is the plain string
    ["{tmpdir}/data"]; on line 254 it is the f-string. *)
Definition persist (config : DLiteStorageConfig) (driver : string)
    (inst : Artifact) : M unit :=
  if truthy (location config) then
    save inst driver (the (location config)) (options config)
  else
    let key := cache_key (datacache_config config) in
    with_TemporaryDirectory (fun tmpdir =>
      save inst driver "{tmpdir}/data" (options config) ;;;
      data <- read_file (tmpdir +:+ "/data") ;;
      cache_add data key).

(** generate.py:272-290 *)
Definition resource_of (config : DLiteStorageConfig) (inst : Artifact) : Resource :=
  {| downloadUrl := location config;
     res_mediaType :=
       if truthy (mediaType config) then the (mediaType config)
       else "application/vnd.dlite-parse";
     res_metadata :=
       if truthy (datamodel config) then the (datamodel config)
       else meta_uri inst;
     res_driver := driver config;
     res_options := options config |}.

Definition str (o : option string) : string := default "None" o.

(** generate.py:310-322, the body of the loop over the restrictions.
    [inputs] and [load_container] are not local to [get], so each is
    looked up among the module's names; [list.append] returns None. *)
Definition check_input (r : pyval) : M unit :=
  load_global "inputs" ;;;
  _ <- lift (subscript r "value") ;;
  let indv : option string := None in
  load_global "load_container" ;;;
  d <- load_container indv ;;
  dataresource <- lift (get_or_empty d "dataresource") ;;
  configuration <- lift (get_or_empty dataresource "configuration") ;;
  metaid <- lift (get_or_none configuration "metadata") ;;
  if negb (truthy_val metaid) then
    raise (KBError ("expected that individual '" +:+ str indv +:+
                    "' is documented as an OTEAPI dataresource with " +:+
                    "of explicit metadata"))
  else ret tt.

(** generate.py:294-322, the body of the [try]. *)
Definition record (config : DLiteStorageConfig) (resource : Resource) : M unit :=
  let iri := the (kb_document_iri config) in
  save_container resource iri ;;;
  (if truthy_dict (kb_document_context config) then
     for_each (default [] (kb_document_context config))
       (fun '(prop, val) => ts_add iri prop val)
   else ret tt) ;;;
  (if truthy (kb_document_computation config) then
     restrictions <- ts_restrictions (the (kb_document_computation config)) hasInput ;;
     for_each restrictions check_input
   else ret tt).

(** generate.py:258-325 *)
Definition document (config : DLiteStorageConfig) (session : option Session)
    (inst : Artifact) : M unit :=
  if truthy (kb_document_iri config) then
    let kb_settings := get_settings session "tripper.triplestore" in
    if negb (truthy_dict kb_settings) then
      raise (KeyError
               ("The `kb_document_iri` configuration requires that a " +:+
                "'tripper.triplestore' settings has been added using the " +:+
                "application/vnd.dlite-settings strategy."))
    else
      let resource := resource_of config inst in
      Triplestore (default [] kb_settings) ;;;
      try_finally (record config resource) ts_close
  else ret tt.

(** generate.py:199-334 *)
Definition get (self : DLiteGenerateStrategy) (session : option Session)
    : M DLiteSessionUpdate :=
  let config := configuration (generate_config self) in
  driver <- resolve_driver config ;;
  coll <- get_collection session (collection_id config) ;;
  inst <- select config coll ;;
  persist config driver inst ;;;
  document config session inst ;;;
  update_collection coll ;;;
  ret {| update_collection_id := uuid coll |}.

(** generate.py:243-334, the statements of [get] that follow the
    selection, for the driver, collection and instance bound so far. *)
Definition finish (config : DLiteStorageConfig) (session : option Session)
    (driver : string) (coll : Collection) (inst : Artifact)
    : M DLiteSessionUpdate :=
  persist config driver inst ;;;
  document config session inst ;;;
  update_collection coll ;;;
  ret {| update_collection_id := uuid coll |}.

(** generate.py:192-197 *)
Definition initialize (self : DLiteGenerateStrategy) (session : option Session)
    : M DLiteSessionUpdate :=
  coll <- get_collection session None ;;
  ret {| update_collection_id := uuid coll |}.

End Strategy.

(** ** What the specification counts *)

(** How many of [label], [datamodel] and [store_collection] are set. *)
Definition policies_set (config : DLiteStorageConfig) : nat :=
  Nat.b2n (truthy (label config)) + Nat.b2n (truthy (datamodel config)) +
  Nat.b2n (store_collection config).

(** Opening and closing of a knowledge-graph connection. *)
Definition connection_event (ev : KBEvent) : bool :=
  match ev with
  | Connect _ | Close => true
  | _ => false
  end.

(** The calls of one run open no connection, or open one first and close
    it last with neither an opening nor a closing in between. *)
Definition closed_once (evs : list KBEvent) : Prop :=
  evs = [] ∨
  ∃ settings mid,
    evs = Connect settings :: mid ++ [Close] ∧
    Forall (fun ev => connection_event ev = false) mid.

(** The temporary directory handed out is a new one: its path is
    absolute and nothing lies below it yet. *)
Definition fresh_tmpdir (E : Env) (w : World) : Prop :=
  String.prefix "/" (mkdtemp E) = true ∧
  ∀ p, String.prefix (mkdtemp E +:+ "/") p = true → files w !! p = None.

(** ** Predicates on computations *)

(** A computation that leaves a part of the world as it is. *)
Definition keeps {X A} (part : World → X) (m : M A) : Prop :=
  ∀ w, part (snd (m w)) = part w.

(** A computation whose calls to the knowledge-graph client, added to
    the log, satisfy [Q]. *)
Definition extends (Q : list KBEvent → Prop) {A} (m : M A) : Prop :=
  ∀ w, ∃ evs, kb (snd (m w)) = kb w ++ evs ∧ Q evs.

(** What the body of the [try] says to the service: one
    [save_container] with the resource it was given and the configured
    IRI, and neither an opening nor a closing of a connection. *)
Definition recording (config : DLiteStorageConfig) (resource : Resource)
    (ev : KBEvent) : Prop :=
  match ev with
  | Connect _ | Close => False
  | SaveContainer r iri => r = resource ∧ iri = the (kb_document_iri config)
  | _ => True
  end.

(** The calls of the documentation step: none, or an opening, the calls
    of the [try] body, and a closing. *)
Definition documenting (config : DLiteStorageConfig) (resource : Resource)
    (evs : list KBEvent) : Prop :=
  evs = [] ∨
  ∃ settings mid,
    evs = Connect settings :: mid ++ [Close] ∧
    Forall (recording config resource) mid.

(** What is handed to [save_container] in a run records the configured
    driver. *)
Definition records_configured_driver (config : DLiteStorageConfig)
    (ev : KBEvent) : Prop :=
  match ev with
  | SaveContainer r _ => res_driver r = driver config
  | _ => True
  end.

(** The same collaborators with another media-type table. *)
Definition with_mediatypes (table : dict string) (E : Env) : Env :=
  {| mediatypes := table;
     fresh_uuid := fresh_uuid E;
     get_instances := get_instances E;
     plugin_dump := plugin_dump E;
     mkdtemp := mkdtemp E;
     kb_connect := kb_connect E;
     kb_save_container := kb_save_container E;
     kb_add := kb_add E;
     kb_restrictions := kb_restrictions E;
     kb_load_container := kb_load_container E;
     kb_close := kb_close E |}.

(** A call other than the loading of a resource description. *)
Definition not_loading (ev : KBEvent) : Prop :=
  match ev with
  | LoadContainer _ => False
  | _ => True
  end.

(** The triples asserted for the entries of [kb_document_context]. *)
Definition context_triples (config : DLiteStorageConfig) : list KBEvent :=
  (fun pv => AddTriple (the (kb_document_iri config)) (fst pv) (snd pv))
    <$> default [] (kb_document_context config).

(** ** A pipeline to run the strategy on *)

Module Fixture.

Definition Image : string := "http://onto-ns.com/meta/1.0/Image".
Definition Other : string := "http://onto-ns.com/meta/1.0/Other".

(** The image of tests/strategies/test_serialise.py. *)
Definition image : Instance :=
  {| inst_uuid := "7a0e4a3c-1f6e-4d0b-9d57-3a5a1a2b9c11";
     inst_meta := Image;
     inst_properties := [("data", "[[[1], [2]], [[3], [4]]]")] |}.

Definition C : Collection :=
  {| uuid := "c0ffee00-0000-4000-8000-000000000001";
     instances := {["image" := image]};
     relations := [("subject", "predicate", "object")] |}.

(** A stand-in for the json plugin: it writes the identity of what it
    is given. *)
Definition dump (a : Artifact) : bytes :=
  match a with
  | AnInstance i => list_byte_of_string (inst_uuid i)
  | ACollection c => list_byte_of_string (uuid c)
  end.

Definition input_individual : string := "http://example.com/kb#input1".

(** A service that answers every call; the computation documented in
    it has one input, whose description names no metadata. *)
Definition env : Env :=
  {| mediatypes := [("application/json", "json")];
     fresh_uuid := "c0ffee00-0000-4000-8000-000000000002";
     get_instances := fun c m _ _ =>
       List.filter (fun i => String.eqb (inst_meta i) m)
                   (snd <$> map_to_list (instances c));
     plugin_dump := fun d _ a =>
       if String.eqb d "json" then Ok (dump a) else Raise (PersistenceError d);
     mkdtemp := "/tmp/tmpk3v9x2ab";
     kb_connect := fun _ => None;
     kb_save_container := fun _ _ => None;
     kb_add := fun _ _ _ => None;
     kb_restrictions := fun _ _ => Ok [PDict [("value", PStr input_individual)]];
     kb_load_container := fun _ => Ok (PDict []);
     kb_close := None |}.

Definition world : World :=
  {| files := ∅; datacache := ∅; collections := {[uuid C := C]}; kb := [] |}.

Definition kb_settings : dict string := [("backend", "rdflib")].

(** The session after [initialize], without and with triplestore
    settings. *)
Definition session : option Session :=
  Some {| session_collection_id := Some (uuid C); session_settings := ∅ |}.

Definition session_kb : option Session :=
  Some {| session_collection_id := Some (uuid C);
          session_settings := {["tripper.triplestore" := kb_settings]} |}.

Definition strategy (config : DLiteStorageConfig) : DLiteGenerateStrategy :=
  {| generate_config := {| configuration := config |} |}.

(** [{label: "image", driver: "json", location: "/tmp/out.json"}] *)
Definition to_location : DLiteStorageConfig :=
  {| driver := Some "json"; mediaType := None; options := None;
     location := Some "/tmp/out.json";
     label := Some "image"; datamodel := None;
     store_collection := false; store_collection_id := None;
     allow_incomplete := Some false; collection_id := None;
     datacache_config := None;
     kb_document_iri := None; kb_document_context := None;
     kb_document_computation := None |}.

(** [{label: "image", driver: "json", datacache_config: {accessKey: "k1"}}] *)
Definition to_cache : DLiteStorageConfig :=
  {| driver := Some "json"; mediaType := None; options := None;
     location := None;
     label := Some "image"; datamodel := None;
     store_collection := false; store_collection_id := None;
     allow_incomplete := Some false; collection_id := None;
     datacache_config := Some {| accessKey := Some "k1" |};
     kb_document_iri := None; kb_document_context := None;
     kb_document_computation := None |}.

(** All three selection fields at once. *)
Definition ambiguous : DLiteStorageConfig :=
  {| driver := Some "json"; mediaType := None; options := None;
     location := Some "/tmp/out.json";
     label := Some "image"; datamodel := Some Image;
     store_collection := true; store_collection_id := None;
     allow_incomplete := Some false; collection_id := None;
     datacache_config := None;
     kb_document_iri := None; kb_document_context := None;
     kb_document_computation := None |}.

(** [{datamodel: Other, mediaType: "application/json",
      datacache_config: {accessKey: "k1"}}]: nothing of that datamodel. *)
Definition no_match : DLiteStorageConfig :=
  {| driver := None; mediaType := Some "application/json"; options := None;
     location := None;
     label := None; datamodel := Some Other;
     store_collection := false; store_collection_id := None;
     allow_incomplete := Some false; collection_id := None;
     datacache_config := Some {| accessKey := Some "k1" |};
     kb_document_iri := None; kb_document_context := None;
     kb_document_computation := None |}.

(** No selection field, everything else in order. *)
Definition no_policy : DLiteStorageConfig :=
  {| driver := Some "json"; mediaType := None; options := None;
     location := Some "/tmp/out.json";
     label := None; datamodel := None;
     store_collection := false; store_collection_id := None;
     allow_incomplete := Some false; collection_id := None;
     datacache_config := None;
     kb_document_iri := None; kb_document_context := None;
     kb_document_computation := None |}.

(** [{store_collection: true, store_collection_id: "copy1"}] *)
Definition copy1 : DLiteStorageConfig :=
  {| driver := Some "json"; mediaType := None; options := None;
     location := Some "/tmp/coll.json";
     label := None; datamodel := None;
     store_collection := true; store_collection_id := Some "copy1";
     allow_incomplete := Some false; collection_id := None;
     datacache_config := None;
     kb_document_iri := None; kb_document_context := None;
     kb_document_computation := None |}.

(** Documentation asked for, driver left to the media type. *)
Definition documented : DLiteStorageConfig :=
  {| driver := None; mediaType := Some "application/json"; options := Some "mode=w";
     location := Some "/tmp/out.json";
     label := Some "image"; datamodel := None;
     store_collection := false; store_collection_id := None;
     allow_incomplete := Some false; collection_id := None;
     datacache_config := None;
     kb_document_iri := Some "http://example.com/kb#output";
     kb_document_context := Some [("http://purl.org/dc/terms/creator", "generate")];
     kb_document_computation := None |}.

(** Documentation with the computation that produced the instance. *)
Definition computed : DLiteStorageConfig :=
  {| driver := Some "json"; mediaType := None; options := None;
     location := Some "/tmp/out.json";
     label := Some "image"; datamodel := None;
     store_collection := false; store_collection_id := None;
     allow_incomplete := Some false; collection_id := None;
     datacache_config := None;
     kb_document_iri := Some "http://example.com/kb#output";
     kb_document_context := None;
     kb_document_computation := Some "http://example.com/kb#Computation" |}.

End Fixture.

(** Further configurations for the pipeline of [Fixture]. *)
Module Scenario.

Import Fixture.

(** A label that names nothing in the collection, with the other two
    selection fields set. *)
Definition mislabelled : DLiteStorageConfig :=
  {| driver := Some "json"; mediaType := None; options := None;
     location := Some "/tmp/out.json";
     label := Some "picture"; datamodel := Some Image;
     store_collection := true; store_collection_id := None;
     allow_incomplete := Some false; collection_id := None;
     datacache_config := None;
     kb_document_iri := None; kb_document_context := None;
     kb_document_computation := None |}.

(** An explicit driver next to a media type no driver is registered
    for. *)
Definition explicit_driver : DLiteStorageConfig :=
  {| driver := Some "json"; mediaType := Some "application/x-unknown";
     options := None;
     location := Some "/tmp/out.json";
     label := Some "image"; datamodel := None;
     store_collection := false; store_collection_id := None;
     allow_incomplete := Some false; collection_id := None;
     datacache_config := None;
     kb_document_iri := None; kb_document_context := None;
     kb_document_computation := None |}.

(** A service whose [close] raises. *)
Definition env_close_fails : Env :=
  {| mediatypes := mediatypes env;
     fresh_uuid := fresh_uuid env;
     get_instances := get_instances env;
     plugin_dump := plugin_dump env;
     mkdtemp := mkdtemp env;
     kb_connect := kb_connect env;
     kb_save_container := kb_save_container env;
     kb_add := kb_add env;
     kb_restrictions := kb_restrictions env;
     kb_load_container := kb_load_container env;
     kb_close := Some (ServiceError "close") |}.

(** Selected by label, documented under another datamodel. *)
Definition documented_as_other : DLiteStorageConfig :=
  {| driver := Some "json"; mediaType := None; options := None;
     location := Some "/tmp/out.json";
     label := Some "image"; datamodel := Some Other;
     store_collection := false; store_collection_id := None;
     allow_incomplete := Some false; collection_id := None;
     datacache_config := None;
     kb_document_iri := Some "http://example.com/kb#output";
     kb_document_context := None;
     kb_document_computation := None |}.

End Scenario.

(** * parse_image.py: the image parse strategy

    [DLiteImageParseStrategy] (src/oteapi_dlite/strategies/parse_image.py)
    reads an image from the data cache, has it decoded, and adds it to
    the collection of the session under a label. It acts on the same
    world as the generate strategy. The state of the strategy object
    itself (what [parse_config.copy()] shares with the original) is not
    part of the model. *)

Module ParseImage.

(** Exceptions raised in parse_image.py and by what it calls. *)
Inductive error : Type :=
| ValueError (msg : string)          (* parse_image.py:60, 80 *)
| RuntimeError (msg : string)        (* parse_image.py:87 *)
| KeyError (key : string)            (* dict subscript; key missing from the cache *)
| IndexError                         (* list index out of range *)
| AttributeError (attr : string)     (* attribute looked up on None *)
| FileNotFoundError (path : string)  (* open() of a missing file *)
| ImageError (what : string)         (* PIL and the oteapi image strategy *)
| DLiteError (what : string).        (* DLite *)

Inductive Outcome (A : Type) : Type :=
| Return (a : A)
| Raises (e : error).
Arguments Return {A} a.
Arguments Raises {A} e.

(** Computations on the world, as for the generate strategy. *)
Definition Run (A : Type) : Type := World → Outcome A * World.

Definition ret {A} (a : A) : Run A := fun w => (Return a, w).

Definition raise {A} (e : error) : Run A := fun w => (Raises e, w).

Definition bind {A B} (m : Run A) (k : A → Run B) : Run B :=
  fun w =>
    match m w with
    | (Return a, w') => k a w'
    | (Raises e, w') => (Raises e, w')
    end.

Definition lift {A} (r : Outcome A) : Run A := fun w => (r, w).

Declare Scope run_scope.
Delimit Scope run_scope with run.
Notation "x <- m ;; k" := (bind m (fun x => k))
  (at level 100, m at next level, right associativity) : run_scope.
Notation "m ;;; k" := (bind m (fun _ => k))
  (at level 100, right associativity) : run_scope.
Local Open Scope run_scope.

(** [s.split(sep)] for a separator of one character. *)
Fixpoint split (sep : ascii) (s : string) : list string :=
  match s with
  | EmptyString => [""]
  | String c rest =>
      if Ascii.eqb c sep then "" :: split sep rest
      else
        match split sep rest with
        | part :: parts => String c part :: parts
        | [] => [String c ""]
        end
  end.

Fixpoint contains (sep : ascii) (s : string) : bool :=
  match s with
  | EmptyString => false
  | String c rest => Ascii.eqb c sep || contains sep rest
  end.

(** [s.rpartition(sep)[2]]: what follows the last separator, or all of
    [s] when there is none. *)
Fixpoint rpartition_tail (sep : ascii) (s : string) : string :=
  match s with
  | EmptyString => ""
  | String c rest =>
      if contains sep rest then rpartition_tail sep rest
      else if Ascii.eqb c sep then rest
      else String c rest
  end.

(** [f"{n:0x}"] *)
Definition hex (n : N) : string :=
  HexadecimalString.NilZero.string_of_uint (N.to_hex_uint n).

(** A numpy array: its shape and its elements in row-major order. *)
Record ndarray : Type := {
  shape : list nat;
  elements : list Z
}.

(** parse_image.py:105-106 *)
Definition as_3d (data : ndarray) : ndarray :=
  match shape data with
  | [n0; n1] => {| shape := [n0; n1; 1]; elements := elements data |}
  | _ => data
  end.

(** A PIL image: its size, its bands and what [np.asarray] gives for
    it. *)
Record PILImage : Type := {
  height : nat;
  width : nat;
  getbands : list string;
  asarray : ndarray
}.

(** The [configuration] of the resource, with the entries the strategy
    reads. *)
Record Configuration : Type := {
  key : option string;
  crop : option (list Z);
  image_label : option string
}.

Record ResourceConfig : Type := {
  mediaType : option string;
  configuration : Configuration
}.

(** [DLiteImageConfig], parse_image.py:27-36. *)
Record DLiteImageConfig : Type := {
  config_crop : option (list Z);
  config_image_label : string
}.

(** [DLiteImageConfig] built from the entries of [configuration]:
    entries that are no fields of the model are ignored, [image_label]
    defaults to ["image"]. *)
Definition image_config_of (c : Configuration) : DLiteImageConfig :=
  {| config_crop := crop c;
     config_image_label := default "image" (image_label c) |}.

Record DLiteImageParseStrategy : Type := {
  parse_config : ResourceConfig
}.

Record SessionUpdate : Type := {
  collection_id : string
}.

(** A DLite datamodel under construction, parse_image.py:123-135. *)
Record Dimension : Type := {
  dim_name : string;
  dim_description : string
}.

Record Property : Type := {
  prop_name : string;
  prop_type : string;
  prop_shape : list string;
  prop_description : string
}.

Record DataModel : Type := {
  uri : string;
  description : string;
  dimensions : list Dimension;
  properties : list Property
}.

Definition add_dimension (name descr : string) (m : DataModel) : DataModel :=
  {| uri := uri m; description := description m;
     dimensions := dimensions m ++ [{| dim_name := name; dim_description := descr |}];
     properties := properties m |}.

Definition add_property (name type : string) (shape : list string)
    (descr : string) (m : DataModel) : DataModel :=
  {| uri := uri m; description := description m;
     dimensions := dimensions m;
     properties := properties m ++
       [{| prop_name := name; prop_type := type; prop_shape := shape;
           prop_description := descr |}] |}.

(** What the libraries answer. [cache_getfile] is the entry of the
    context manager [DataCache().getfile(key, suffix=...)]: from the
    cache and the files it gives the path of a temporary file, or an
    exception, and the files as it leaves them; [cache_release] is its
    exit. Then the decoders, the instance DLite builds for a datamodel,
    dimensions and data, and the random bits. *)
Record Env : Type := {
  cache_getfile : string → string → gmap string bytes → gmap string bytes →
                  Outcome string * gmap string bytes;
  cache_release : string → gmap string bytes → gmap string bytes;
  image_open : bytes → Outcome PILImage;
  image_crop : list Z → string → bytes → Outcome bytes;
  new_instance : string → list nat → ndarray → Outcome Instance;
  getrandbits : N
}.

Definition META_PREFIX : string := "http://onto-ns.com/meta".

Section Strategy.

Context (E : Env).

(** [with DataCache().getfile(key, suffix=suffix) as tmp_file: body]:
    what the cache does to the files on entry and on exit is its own;
    the exit runs when the block is left, by return or by exception,
    and not when the entry itself raises. *)
Definition getfile {A} (key suffix : string) (body : string → Run A) : Run A :=
  fun w =>
    match cache_getfile E key suffix (datacache w) (files w) with
    | (Raises e, fs) => (Raises e, set_files (fun _ => fs) w)
    | (Return tmp_file, fs) =>
        let '(r, w') := body tmp_file (set_files (fun _ => fs) w) in
        (r, set_files (cache_release E tmp_file) w')
    end.

Definition read_file (path : string) : Run bytes :=
  fun w =>
    match files w !! path with
    | Some b => (Return b, w)
    | None => (Raises (FileNotFoundError path), w)
    end.

(** [dlite.get_collection(id)] *)
Definition get_collection (id : string) : Run Collection :=
  fun w =>
    match collections w !! id with
    | Some c => (Return c, w)
    | None => (Raises (DLiteError id), w)
    end.

Definition with_instance (label : string) (inst : Instance) (coll : Collection)
    : Collection :=
  {| uuid := uuid coll;
     instances := <[label := inst]> (instances coll);
     relations := relations coll |}.

(** [coll.add(label, inst)] on the collection registered under [id]: a
    label already in use is refused. *)
Definition add (id : string) (coll : Collection) (label : string)
    (inst : Instance) : Run unit :=
  fun w =>
    match instances coll !! label with
    | Some _ => (Raises (DLiteError label), w)
    | None =>
        (Return tt, set_collections (insert id (with_instance label inst coll)) w)
    end.

(** [session[name]] *)
Definition subscript (session : gmap string string) (name : string) : Run string :=
  match session !! name with
  | Some v => ret v
  | None => raise (KeyError name)
  end.

(** A tuple is true when it is not empty. *)
Definition truthy_tuple (t : option (list Z)) : bool :=
  match t with
  | Some (_ :: _) => true
  | _ => false
  end.

(** parse_image.py:57-61 *)
Definition initialize (self : DLiteImageParseStrategy)
    (session : option (gmap string string)) : Run DLiteSessionUpdate :=
  match session with
  | None => raise (ValueError "Missing session")
  | Some session =>
      id <- subscript session "collection_id" ;;
      ret {| update_collection_id := id |}
  end.

(** parse_image.py:82-87 *)
Definition image_key (self : DLiteImageParseStrategy)
    (session : gmap string string) : Run string :=
  match session !! "key" with
  | Some k => ret k
  | None =>
      match key (configuration (parse_config self)) with
      | Some k => ret k
      | None => raise (RuntimeError "Image parser needs an image to parse")
      end
  end.

(** [self.parse_config.mediaType.split("/")[1]] *)
Definition suffix_of (mediaType : option string) : Run string :=
  match mediaType with
  | None => raise (AttributeError "split")
  | Some mt =>
      match split "/" mt !! 1 with
      | Some sfx => ret sfx
      | None => raise IndexError
      end
  end.

(** parse_image.py:63-114 *)
Definition get (self : DLiteImageParseStrategy)
    (session : option (gmap string string)) : Run SessionUpdate :=
  match session with
  | None => raise (ValueError "Missing session")
  | Some session =>
      key <- image_key self session ;;
      let image_config := image_config_of (configuration (parse_config self)) in
      suffix <- suffix_of (mediaType (parse_config self)) ;;
      image <- getfile key suffix (fun tmp_file =>
        if truthy_tuple (config_crop image_config) then
          file <- read_file tmp_file ;;
          content <- lift (image_crop E (default [] (config_crop image_config))
                             tmp_file file) ;;
          lift (image_open E content)
        else
          file <- read_file tmp_file ;;
          lift (image_open E file)) ;;
      let data := as_3d (asarray image) in
      inst <- lift (new_instance E "http://onto-ns.com/meta/1.0/Image"
                      [height image; width image; length (getbands image)] data) ;;
      id <- subscript session "collection_id" ;;
      coll <- get_collection id ;;
      add id coll (config_image_label image_config) inst ;;;
      ret {| collection_id := uuid coll |}
  end.

(** parse_image.py:116-135. The image is not looked at. *)
Definition create_meta (media_type data_type : string) : DataModel :=
  let image_format := rpartition_tail "/" media_type in
  let rnd := getrandbits E in
  let uri := META_PREFIX +:+ "/1.0/generated_from_" +:+ image_format +:+ "_"
             +:+ hex rnd in
  let metadata :=
    {| uri := uri;
       description := "Generated datamodel from " +:+ image_format +:+ " file.";
       dimensions := []; properties := [] |} in
  let metadata := add_dimension "nheight" "Vertical number of pixels." metadata in
  let metadata := add_dimension "nwidth" "Horizontal number of pixels." metadata in
  let metadata := add_dimension "nbands" "Number of bands per pixel." metadata in
  add_property "data" data_type ["nheight"; "nwidth"; "nbands"]
    "The image contents." metadata.

End Strategy.

(** The strategy with another [key] in its configuration. *)
Definition with_key (k : option string) (self : DLiteImageParseStrategy)
    : DLiteImageParseStrategy :=
  {| parse_config :=
       {| mediaType := mediaType (parse_config self);
          configuration :=
            {| key := k;
               crop := crop (configuration (parse_config self));
               image_label := image_label (configuration (parse_config self)) |} |} |}.

(** The collaborators with other random bits. *)
Definition with_randbits (n : N) (E : Env) : Env :=
  {| cache_getfile := cache_getfile E;
     cache_release := cache_release E;
     image_open := image_open E;
     image_crop := image_crop E;
     new_instance := new_instance E;
     getrandbits := n |}.

End ParseImage.

(** A greyscale image of two by two pixels in the cache of the pipeline
    of [Fixture]. *)
Module ImageScenario.

Import Fixture.

Definition png : bytes := list_byte_of_string "PNG2x2".

Definition grey : ParseImage.PILImage :=
  {| ParseImage.height := 2; ParseImage.width := 2;
     ParseImage.getbands := ["L"];
     ParseImage.asarray :=
       {| ParseImage.shape := [2; 2]; ParseImage.elements := [1; 2; 3; 4]%Z |} |}.

Definition parsed : Instance :=
  {| inst_uuid := "5b1e0c2a-8f0d-4a57-9c3e-1d2f3a4b5c6d";
     inst_meta := Image;
     inst_properties := [("data", "[[[1], [2]], [[3], [4]]]")] |}.

(** A cache that writes the value to a new temporary file and removes
    the file on exit; on a missing key the file it has created stays
    behind, empty. *)
Definition env : ParseImage.Env :=
  {| ParseImage.cache_getfile := fun key sfx cache fs =>
       let tmp_file := "/tmp/oteapi-k9f2." +:+ sfx in
       match cache !! key with
       | Some value => (ParseImage.Return tmp_file, <[tmp_file := value]> fs)
       | None => (ParseImage.Raises (ParseImage.KeyError key), <[tmp_file := []]> fs)
       end;
     ParseImage.cache_release := fun tmp_file fs => delete tmp_file fs;
     ParseImage.image_open := fun b =>
       if String.eqb (string_of_list_byte b) "PNG2x2" then ParseImage.Return grey
       else ParseImage.Raises (ParseImage.ImageError "cannot identify image file");
     ParseImage.image_crop := fun _ _ b => ParseImage.Return b;
     ParseImage.new_instance := fun meta dims data =>
       if bool_decide (dims = [2; 2; 1]) then ParseImage.Return parsed
       else ParseImage.Raises (ParseImage.DLiteError "dims");
     ParseImage.getrandbits := 43981%N |}.

(** An empty collection for the session. *)
Definition empty : Collection :=
  {| uuid := "c0ffee00-0000-4000-8000-000000000003"; instances := ∅; relations := [] |}.

Definition world : World :=
  {| files := ∅; datacache := {["imagekey" := png]};
     collections := {[uuid empty := empty]}; kb := [] |}.

Definition session : gmap string string :=
  {["collection_id" := uuid empty; "key" := "imagekey"]}.

Definition strategy : ParseImage.DLiteImageParseStrategy :=
  {| ParseImage.parse_config :=
       {| ParseImage.mediaType := Some "image/png";
          ParseImage.configuration :=
            {| ParseImage.key := Some "otherkey";
               ParseImage.crop := None;
               ParseImage.image_label := None |} |} |}.

(** The session as the generate strategy reads it. *)
Definition generate_session : option Session :=
  Some {| session_collection_id := Some (uuid empty); session_settings := ∅ |}.

End ImageScenario.

(** ** Reasoning about computations *)

Lemma bind_ok {A B} (m : M A) (k : A → M B) w a w' :
  m w = (Ok a, w') → bind m k w = k a w'.
Proof. intros H. unfold bind. by rewrite H. Qed.

Lemma bind_raise {A B} (m : M A) (k : A → M B) w e w' :
  m w = (Raise e, w') → bind m k w = (Raise e, w').
Proof. intros H. unfold bind. by rewrite H. Qed.

(** *** Parts of the world a computation leaves as they are *)

Section Frames.

Context {X : Type} (part : World → X).

Lemma keeps_ret {A} (a : A) : keeps part (ret a).
Proof. by intros w. Qed.

Lemma keeps_raise {A} e : keeps part (@raise A e).
Proof. by intros w. Qed.

Lemma keeps_lift {A} (r : Result A) : keeps part (lift r).
Proof. by intros w. Qed.

Lemma keeps_bind {A B} (m : M A) (k : A → M B) :
  keeps part m → (∀ a, keeps part (k a)) → keeps part (bind m k).
Proof.
  intros Hm Hk w. unfold bind.
  specialize (Hm w). destruct (m w) as [[a|e] w1]; simpl in *.
  - by rewrite Hk.
  - done.
Qed.

Lemma keeps_for_each {A} (xs : list A) (body : A → M unit) :
  (∀ x, keeps part (body x)) → keeps part (for_each xs body).
Proof.
  intros Hbody. induction xs as [|x xs IH]; simpl.
  - apply keeps_ret.
  - apply keeps_bind; auto.
Qed.

Lemma keeps_try_finally {A} (body : M A) (handler : M unit) :
  keeps part body → keeps part handler → keeps part (try_finally body handler).
Proof.
  intros Hb Hh w. unfold try_finally.
  specialize (Hb w). destruct (body w) as [r w1]; simpl in *.
  specialize (Hh w1). destruct (handler w1) as [[[]|e] w2]; simpl in *;
    congruence.
Qed.

Lemma keeps_if {A} (b : bool) (m1 m2 : M A) :
  keeps part m1 → keeps part m2 → keeps part (if b then m1 else m2).
Proof. by destruct b. Qed.

End Frames.

Create HintDb frame discriminated.
#[export] Hint Resolve keeps_ret keeps_raise keeps_lift keeps_for_each
  keeps_try_finally keeps_if : frame.

(** Solves [keeps part m] for a computation built from the combinators
    above and from steps that are constant on [part] by computation. *)
Ltac frame :=
  repeat first
    [ apply keeps_bind; [|intros ?]
    | progress eauto with frame
    | match goal with
      | |- keeps _ (match ?x with _ => _ end) => destruct x
      | |- keeps _ (let '(_, _) := ?x in _) => destruct x
      | |- keeps _ _ => by intros ?
      | |- keeps _ _ => intros ?; cbv beta delta -[insert filter lookup app] iota;
                        repeat case_match; done
      end ].

Section StrategyFacts.

Context (E : Env).

Lemma resolve_driver_pure config w :
  snd (resolve_driver E config w) = w.
Proof. unfold resolve_driver. by destruct (truthy (driver config)). Qed.

Lemma lookup_collection_pure id w : snd (lookup_collection id w) = w.
Proof. unfold lookup_collection. by destruct (collections w !! id). Qed.

Lemma get_collection_keeps {X} (part : World → X) session id :
  (∀ f w, part (set_collections f w) = part w) →
  keeps part (get_collection E session id).
Proof.
  intros Hpart w. unfold get_collection.
  destruct id as [i|]; [by rewrite lookup_collection_pure|].
  destruct (session ≫= session_collection_id) as [i|];
    [by rewrite lookup_collection_pure|].
  simpl. apply Hpart.
Qed.

Lemma select_keeps {X} (part : World → X) config coll :
  (∀ f w, part (set_collections f w) = part w) →
  keeps part (select E config coll).
Proof.
  intros Hpart. unfold select, getitem, next, copy.
  repeat case_match; frame. intros w. simpl. apply Hpart.
Qed.

Lemma save_keeps {X} (part : World → X) inst driver location options :
  (∀ f w, part (set_files f w) = part w) →
  keeps part (save E inst driver location options).
Proof.
  intros Hpart w. unfold save.
  destruct (plugin_dump E driver options inst); simpl; [apply Hpart|done].
Qed.

Lemma persist_keeps {X} (part : World → X) config driver inst :
  (∀ f w, part (set_files f w) = part w) →
  (∀ f w, part (set_datacache f w) = part w) →
  keeps part (persist E config driver inst).
Proof.
  intros Hf Hc. unfold persist.
  destruct (truthy (location config)); [by apply save_keeps|].
  intros w. unfold with_TemporaryDirectory.
  match goal with |- context [bind ?m ?k w] =>
    pose proof (keeps_bind part m k) as Hk;
    destruct (bind m k w) as [r w'] eqn:Hb end.
  simpl. rewrite Hf. change w' with (snd (r, w')). rewrite <- Hb.
  apply Hk; [by apply save_keeps|]. intros _.
  apply keeps_bind.
  - intros w0. unfold read_file. by destruct (files w0 !! _).
  - intros a w0. simpl. apply Hc.
Qed.

Lemma update_collection_keeps {X} (part : World → X) coll :
  (∀ f w, part (set_collections f w) = part w) →
  keeps part (update_collection coll).
Proof. intros Hpart w. apply Hpart. Qed.

Lemma check_input_keeps {X} (part : World → X) r :
  (∀ ev w, part (log ev w) = part w) →
  keeps part (check_input E r).
Proof.
  intros Hpart. unfold check_input, load_global, load_container.
  frame. intros w. apply Hpart.
Qed.

Lemma record_keeps {X} (part : World → X) config resource :
  (∀ ev w, part (log ev w) = part w) →
  keeps part (record E config resource).
Proof.
  intros Hpart. unfold record.
  apply keeps_bind; [intros w; apply Hpart|intros _].
  apply keeps_bind; [|intros _].
  - apply keeps_if; [|apply keeps_ret].
    apply keeps_for_each. intros [prop val] w. apply Hpart.
  - apply keeps_if; [|apply keeps_ret].
    apply keeps_bind; [intros w; apply Hpart|intros rs].
    apply keeps_for_each. intros r. by apply check_input_keeps.
Qed.

Lemma document_keeps {X} (part : World → X) config session inst :
  (∀ ev w, part (log ev w) = part w) →
  keeps part (document E config session inst).
Proof.
  intros Hpart. unfold document.
  apply keeps_if; [|apply keeps_ret].
  apply keeps_if; [apply keeps_raise|].
  apply keeps_bind; [|intros _].
  - intros w. unfold Triplestore. destruct (kb_connect E _); [done|apply Hpart].
  - apply keeps_try_finally; [by apply record_keeps|].
    intros w. apply Hpart.
Qed.

End StrategyFacts.


(** *** Calls a computation adds to the knowledge-graph log *)

Lemma extends_keeps (Q : list KBEvent → Prop) {A} (m : M A) :
  Q [] → keeps kb m → extends Q m.
Proof. intros HQ Hm w. exists []. by rewrite Hm, app_nil_r. Qed.

Lemma extends_log (P : KBEvent → Prop) {A} (r : Result A) ev :
  P ev → extends (Forall P) (fun w => (r, log ev w)).
Proof. intros HP w. exists [ev]. split; [done|]. by constructor. Qed.

Lemma extends_bind (P : KBEvent → Prop) {A B} (m : M A) (k : A → M B) :
  extends (Forall P) m → (∀ a, extends (Forall P) (k a)) →
  extends (Forall P) (bind m k).
Proof.
  intros Hm Hk w. unfold bind.
  destruct (Hm w) as (evs & Hkb & Hevs).
  destruct (m w) as [[a|e] w1]; simpl in *; [|by exists evs].
  destruct (Hk a w1) as (evs' & Hkb' & Hevs').
  exists (evs ++ evs'). split.
  - by rewrite Hkb', Hkb, app_assoc.
  - by apply Forall_app.
Qed.

Lemma extends_for_each (P : KBEvent → Prop) {A} (xs : list A) (body : A → M unit) :
  (∀ x, extends (Forall P) (body x)) → extends (Forall P) (for_each xs body).
Proof.
  intros Hbody. induction xs as [|x xs IH]; simpl.
  - by apply extends_keeps; [constructor|].
  - by apply extends_bind.
Qed.

Lemma extends_if (Q : list KBEvent → Prop) {A} (b : bool) (m1 m2 : M A) :
  extends Q m1 → extends Q m2 → extends Q (if b then m1 else m2).
Proof. by destruct b. Qed.

Section Provenance.

Context (E : Env).

Lemma kb_set_files f w : kb (set_files f w) = kb w.
Proof. done. Qed.

Lemma kb_set_datacache f w : kb (set_datacache f w) = kb w.
Proof. done. Qed.

Lemma kb_set_collections f w : kb (set_collections f w) = kb w.
Proof. done. Qed.

Lemma check_input_extends config resource r :
  extends (Forall (recording config resource)) (check_input E r).
Proof.
  unfold check_input.
  apply extends_bind; [apply extends_keeps; [constructor|]|intros _].
  { unfold load_global. frame. }
  apply extends_bind; [apply extends_keeps; [constructor|frame]|intros _].
  apply extends_bind; [apply extends_keeps; [constructor|]|intros _].
  { unfold load_global. frame. }
  apply extends_bind; [by apply extends_log|intros d].
  apply extends_keeps; [constructor|]. frame.
Qed.

Lemma record_extends config resource :
  extends (Forall (recording config resource)) (record E config resource).
Proof.
  unfold record.
  apply extends_bind; [by apply extends_log|intros _].
  apply extends_bind; [|intros _].
  - apply extends_if; [|by apply extends_keeps; [constructor|]].
    apply extends_for_each. intros [prop val]. by apply extends_log.
  - apply extends_if; [|by apply extends_keeps; [constructor|]].
    apply extends_bind; [by apply extends_log|intros rs].
    apply extends_for_each. intros r. apply check_input_extends.
Qed.

Lemma document_extends config session inst :
  extends (documenting config (resource_of config inst))
          (document E config session inst).
Proof.
  unfold document.
  apply extends_if; [|by apply extends_keeps; [left|]].
  apply extends_if; [by apply extends_keeps; [left|]|].
  intros w. unfold bind, Triplestore.
  destruct (kb_connect E _) as [e|]; simpl.
  { exists []. by rewrite app_nil_r; split; [|left]. }
  unfold try_finally.
  destruct (record_extends config (resource_of config inst)
              (log (Connect (default [] (get_settings session "tripper.triplestore"))) w))
    as (mid & Hkb & Hmid).
  destruct (record E config _ _) as [r w1]; simpl in *.
  exists (Connect (default [] (get_settings session "tripper.triplestore"))
            :: mid ++ [Close]).
  split; [|right; eauto].
  unfold ts_close.
  destruct (outcome (kb_close E)) as [[]|e]; simpl;
    rewrite Hkb; by rewrite <- !app_assoc.
Qed.

(** The calls of a whole run of [get] are those of its documentation
    step. *)
Lemma get_extends (Q : list KBEvent → Prop) self session :
  Q [] →
  (∀ inst, extends Q (document E (configuration (generate_config self)) session inst)) →
  extends Q (get E self session).
Proof.
  intros HQ Hdoc. unfold get.
  set (config := configuration (generate_config self)).
  intros w. unfold bind.
  pose proof (resolve_driver_pure E config w) as H1.
  destruct (resolve_driver E config w) as [[driver|e] w1]; simpl in H1; subst w1;
    [|by exists []; rewrite app_nil_r].
  pose proof (get_collection_keeps E kb session (collection_id config)
                kb_set_collections w) as H2.
  destruct (get_collection E session (collection_id config) w) as [[coll|e] w2];
    simpl in H2; [|exists []; simpl; rewrite app_nil_r; by split].
  pose proof (select_keeps E kb config coll kb_set_collections w2) as H3.
  destruct (select E config coll w2) as [[inst|e] w3];
    simpl in H3; [|exists []; simpl; rewrite app_nil_r; split; [congruence|done]].
  pose proof (persist_keeps E kb config driver inst kb_set_files
                kb_set_datacache w3) as H4.
  destruct (persist E config driver inst w3) as [[[]|e] w4];
    simpl in H4; [|exists []; simpl; rewrite app_nil_r; split; [congruence|done]].
  destruct (Hdoc inst w4) as (evs & H5 & Hevs).
  fold config in H5.
  destruct (document E config session inst w4) as [[[]|e] w5];
    simpl in *; exists evs; (split; [congruence|done]).
Qed.

End Provenance.

(** *** Running [get] statement by statement *)

Section Stepping.

Context (E : Env) (self : DLiteGenerateStrategy) (session : option Session).

Let config := configuration (generate_config self).

Lemma get_driver_fails w e :
  resolve_driver E config w = (Raise e, w) →
  get E self session w = (Raise e, w).
Proof. intros H. unfold get. fold config. by rewrite (bind_raise _ _ _ _ _ H). Qed.

Lemma get_collection_fails w driver e w1 :
  resolve_driver E config w = (Ok driver, w) →
  get_collection E session (collection_id config) w = (Raise e, w1) →
  get E self session w = (Raise e, w1).
Proof.
  intros H1 H2. unfold get. fold config.
  rewrite (bind_ok _ _ _ _ _ H1). by rewrite (bind_raise _ _ _ _ _ H2).
Qed.

Lemma get_select_fails w driver coll w1 e w2 :
  resolve_driver E config w = (Ok driver, w) →
  get_collection E session (collection_id config) w = (Ok coll, w1) →
  select E config coll w1 = (Raise e, w2) →
  get E self session w = (Raise e, w2).
Proof.
  intros H1 H2 H3. unfold get. fold config.
  rewrite (bind_ok _ _ _ _ _ H1), (bind_ok _ _ _ _ _ H2).
  by rewrite (bind_raise _ _ _ _ _ H3).
Qed.

Lemma get_selected w driver coll w1 inst w2 :
  resolve_driver E config w = (Ok driver, w) →
  get_collection E session (collection_id config) w = (Ok coll, w1) →
  select E config coll w1 = (Ok inst, w2) →
  get E self session w = finish E config session driver coll inst w2.
Proof.
  intros H1 H2 H3. unfold get. fold config.
  rewrite (bind_ok _ _ _ _ _ H1), (bind_ok _ _ _ _ _ H2).
  by rewrite (bind_ok _ _ _ _ _ H3).
Qed.

(** What [finish] can do to the live collections: nothing, or publish
    the collection of the session. *)
Lemma finish_collections driver coll inst w :
  let w' := snd (finish E config session driver coll inst w) in
  collections w' = collections w ∨
  collections w' = <[uuid coll := coll]> (collections w).
Proof.
  unfold finish, bind.
  pose proof (persist_keeps E collections config driver inst
                (fun _ _ => eq_refl) (fun _ _ => eq_refl) w) as H1.
  destruct (persist E config driver inst w) as [[[]|e] w1]; simpl in H1;
    [|by left].
  pose proof (document_keeps E collections config session inst
                (fun _ _ => eq_refl) w1) as H2.
  destruct (document E config session inst w1) as [[[]|e] w2]; simpl in H2;
    simpl; [right|left]; congruence.
Qed.

End Stepping.

(** ** The temporary file of the cache branch *)

Lemma under_tmpdir (d : string) : String.prefix (d +:+ "/") (d +:+ "/data") = true.
Proof.
  induction d as [|a d IH]; simpl.
  - done.
  - by destruct (Ascii.ascii_dec a a).
Qed.

Lemma absolute_not_literal (d : string) :
  String.prefix "/" d = true → d +:+ "/data" ≠ "{tmpdir}/data".
Proof.
  destruct d as [|a d]; [done|]. intros Habs Heq.
  cbn [String.append] in Heq. injection Heq as -> _.
  by vm_compute in Habs.
Qed.

(** Without a location nothing reaches the cache, whatever the key:
    line 253 writes to the path spelled ["{tmpdir}/data"], line 254 opens
    the file of that name in the new directory, which is not there. *)
Lemma persist_to_cache_never_caches E config driver inst w :
  truthy (location config) = false →
  fresh_tmpdir E w →
  raised (fst (persist E config driver inst w)) = true ∧
  datacache (snd (persist E config driver inst w)) = datacache w.
Proof.
  intros Hloc [Habs Hfresh]. unfold persist. rewrite Hloc.
  unfold with_TemporaryDirectory, bind, save.
  destruct (plugin_dump E driver (options config) inst) as [b|e]; [|done].
  unfold read_file. simpl.
  rewrite lookup_insert_ne by (symmetry; by apply absolute_not_literal).
  rewrite Hfresh by apply under_tmpdir. done.
Qed.

(** So no run of [get] stores anything in the cache. *)
Lemma get_never_caches E self session w :
  fresh_tmpdir E w →
  datacache (snd (get E self session w)) = datacache w.
Proof.
  intros Hfresh. unfold get.
  set (config := configuration (generate_config self)).
  unfold bind.
  pose proof (resolve_driver_pure E config w) as H1.
  destruct (resolve_driver E config w) as [[driver|e] w0]; simpl in H1; subst w0;
    [|done].
  pose proof (get_collection_keeps E datacache session (collection_id config)
                (fun _ _ => eq_refl) w) as Hc2.
  pose proof (get_collection_keeps E files session (collection_id config)
                (fun _ _ => eq_refl) w) as Hf2.
  destruct (get_collection E session (collection_id config) w) as [[coll|e] w2];
    simpl in Hc2, Hf2; [|done].
  pose proof (select_keeps E datacache config coll (fun _ _ => eq_refl) w2) as Hc3.
  pose proof (select_keeps E files config coll (fun _ _ => eq_refl) w2) as Hf3.
  destruct (select E config coll w2) as [[inst|e] w3]; simpl in Hc3, Hf3;
    [|simpl; congruence].
  assert (datacache (snd (persist E config driver inst w3)) = datacache w3) as Hc4.
  { destruct (truthy (location config)) eqn:Hloc.
    - unfold persist. rewrite Hloc. by apply save_keeps.
    - apply persist_to_cache_never_caches; [done|].
      destruct Hfresh as [Habs Hfresh]. split; [done|].
      intros p Hp. rewrite Hf3, Hf2. by apply Hfresh. }
  destruct (persist E config driver inst w3) as [[[]|e] w4]; simpl in Hc4;
    [|simpl; congruence].
  pose proof (document_keeps E datacache config session inst
                (fun _ _ => eq_refl) w4) as Hc5.
  destruct (document E config session inst w4) as [[[]|e] w5]; simpl in *;
    congruence.
Qed.

(** ** Properties of the strategy *)

Section Properties.

Import Fixture.

(** The names the loop body of lines 310-311 looks up are bound neither
    in [get] nor in the module. *)
Example names_unbound :
  bool_decide ("inputs" ∈ local_names ++ module_names) = false ∧
  bool_decide ("load_container" ∈ local_names ++ module_names) = false.
Proof. split; by vm_compute. Qed.

(** The first end-to-end scenario of the specification: the instance
    labelled ["image"] is written to the location by the json plugin and
    the id of the collection is returned. *)
Example label_to_location :
  let run := get env (strategy to_location) session world in
  fst run = Ok {| update_collection_id := uuid C |} ∧
  files (snd run) !! "/tmp/out.json" = Some (dump (AnInstance image)) ∧
  datacache (snd run) = datacache world ∧
  collections (snd run) = collections world.
Proof. vm_compute. repeat split. Qed.

(** C1 (the code departs from it): without a location the serialised
    bytes should be in the cache under the configured key once [get]
    is through, and the file used on the way should be gone. At the
    configuration [{label: "image", driver: "json",
    datacache_config: {accessKey: "k1"}}] the run ends in
    FileNotFoundError for the file in the temporary directory, the
    cache has nothing under ["k1"], and the write of line 253, which the
    flat file system of [save] records under the literal name
    ["{tmpdir}/data"], is still there after the call. *)
Theorem cache_branch_at_fixture :
  let run := get env (strategy to_cache) session world in
  fst run = Raise (FileNotFoundError "/tmp/tmpk3v9x2ab/data") ∧
  datacache (snd run) !! "k1" = None ∧
  datacache (snd run) = datacache world ∧
  files (snd run) !! "{tmpdir}/data" = Some (dump (AnInstance image)).
Proof. vm_compute. repeat split. Qed.

(** C3 (the code departs from it): with a computation configured, an
    input individual whose description names no metadata should make
    [get] fail with KBError naming that individual. At the
    configuration [computed], with one has-input restriction in the
    graph, the loop body fails on its first statement with NameError
    for [inputs]: no description is loaded and KBError is not
    raised. *)
Theorem computation_inputs_at_fixture :
  let run := get env (strategy computed) session_kb world in
  kb_restrictions env (the (kb_document_computation computed)) hasInput
    = Ok [PDict [("value", PStr input_individual)]] ∧
  (∀ indv, kb_load_container env indv = Ok (PDict [])) ∧
  fst run = Raise (NameError "inputs") ∧
  Forall (fun ev => ∀ i, ev ≠ LoadContainer i) (kb (snd run)).
Proof.
  vm_compute. repeat split. repeat constructor; discriminate.
Qed.

(** C2, as stated, does not hold: a configuration with more than one
    of [label], [datamodel] and [store_collection] set is not
    rejected. With all three set, [get] selects by label and
    returns. *)
Lemma ambiguous_policy_accepted :
  ¬ (∀ E self session w,
       1 < policies_set (configuration (generate_config self)) →
       raised (fst (get E self session w)) = true).
Proof.
  intros H.
  pose proof (H env (strategy ambiguous) session world) as H'.
  assert (1 < policies_set (configuration (generate_config (strategy ambiguous))))
    as Hset by (vm_compute; lia).
  specialize (H' Hset). by vm_compute in H'.
Qed.

(** C2, amended: when more than one of [label], [datamodel] and
    [store_collection] is set, the selection is resolved by precedence:
    by label if [label] is set, otherwise by datamodel; and the
    selection does not raise the ValueError of line 239. *)
Theorem selection_by_precedence E config coll :
  1 < policies_set config →
  select E config coll =
    (if truthy (label config) then getitem coll (the (label config))
     else
       inst <- next (get_instances E coll (the (datamodel config)) true
                       (allow_incomplete config)) ;;
       ret (AnInstance inst)) ∧
  ∀ w msg, fst (select E config coll w) ≠ Raise (ValueError msg).
Proof.
  unfold policies_set, select. intros Hset.
  destruct (truthy (label config)).
  - split; [done|]. intros w msg. unfold getitem.
    by destruct (instances coll !! the (label config)).
  - destruct (truthy (datamodel config)).
    + split; [done|]. intros w msg.
      by destruct (get_instances E coll _ _ _).
    + destruct (store_collection config); simpl in Hset; lia.
Qed.

Lemma selection_by_precedence_witness :
  1 < policies_set ambiguous ∧
  select env ambiguous C = getitem C "image" ∧
  ∀ w msg, fst (select env ambiguous C w) ≠ Raise (ValueError msg).
Proof.
  assert (1 < policies_set ambiguous) as Hset by (vm_compute; lia).
  split; [exact Hset|].
  exact (selection_by_precedence env ambiguous C Hset).
Defined.

(** C4: when the selection is by datamodel, [get] goes on with the
    first of the instances the mappings give; when there is none it
    fails with StopIteration (the specification's NoMatchError), and
    neither the cache nor the file system has been written. *)
Theorem selection_by_datamodel E self session w driver coll w1 :
  let config := configuration (generate_config self) in
  truthy (label config) = false →
  truthy (datamodel config) = true →
  resolve_driver E config w = (Ok driver, w) →
  get_collection E session (collection_id config) w = (Ok coll, w1) →
  match get_instances E coll (the (datamodel config)) true
          (allow_incomplete config) with
  | inst :: _ =>
      get E self session w =
        finish E config session driver coll (AnInstance inst) w1
  | [] =>
      get E self session w = (Raise StopIteration, w1) ∧
      datacache w1 = datacache w ∧ files w1 = files w
  end.
Proof.
  intros config Hlabel Hmodel Hdriver Hcoll.
  assert (select E config coll w1 =
          bind (next (get_instances E coll (the (datamodel config)) true
                        (allow_incomplete config)))
               (fun inst => ret (AnInstance inst)) w1) as Hsel.
  { unfold select. by rewrite Hlabel, Hmodel. }
  destruct (get_instances E coll _ _ _) as [|inst rest].
  - split; [by eapply get_select_fails|].
    pose proof (get_collection_keeps E datacache session (collection_id config)
                  (fun _ _ => eq_refl) w) as Hc.
    pose proof (get_collection_keeps E files session (collection_id config)
                  (fun _ _ => eq_refl) w) as Hf.
    rewrite Hcoll in Hc, Hf. done.
  - by eapply get_selected.
Qed.

Lemma selection_by_datamodel_witness :
  truthy (label no_match) = false ∧
  truthy (datamodel no_match) = true ∧
  get env (strategy no_match) session world = (Raise StopIteration, world) ∧
  datacache world = datacache world ∧ files world = files world.
Proof.
  split; [reflexivity|]. split; [reflexivity|].
  exact (selection_by_datamodel env (strategy no_match) session world
           "json" C world eq_refl eq_refl eq_refl eq_refl).
Defined.

(** C5 (the code departs from it): what is stored at a location and
    what is read back from the cache should be the same bytes. At the
    image of the fixture the location branch stores the plugin's bytes
    at ["/tmp/out.json"], and the cache branch raises
    FileNotFoundError and stores nothing under the key. *)
Theorem branches_at_fixture :
  let at_location := persist env to_location "json" (AnInstance image) world in
  let in_cache := persist env to_cache "json" (AnInstance image) world in
  fst at_location = Ok tt ∧
  files (snd at_location) !! "/tmp/out.json" = Some (dump (AnInstance image)) ∧
  fst in_cache = Raise (FileNotFoundError "/tmp/tmpk3v9x2ab/data") ∧
  datacache (snd in_cache) !! cache_key (datacache_config to_cache) = None.
Proof. vm_compute. repeat split. Qed.

(** C6, as stated, does not hold: with none of [label], [datamodel]
    and [store_collection] set, the failure does not come before any
    side effect. The collection lookup of line 222 comes first: called
    without a session, [get] fails with the ValueError of line 239 in a
    world that holds a collection the lookup has created. *)
Lemma no_policy_after_lookup :
  ¬ (∀ E self session w,
       policies_set (configuration (generate_config self)) = 0 →
       ∃ msg, get E self session w = (Raise (ValueError msg), w)).
Proof.
  intros H.
  destruct (H env (strategy no_policy) None world eq_refl) as [msg Hget].
  apply (f_equal (fun run => collections (snd run) !! fresh_uuid env)) in Hget.
  by vm_compute in Hget.
Qed.

(** C6, amended: with none of [label], [datamodel] and
    [store_collection] set, [get] fails, after driver resolution and
    collection lookup. When both succeed it fails with the ValueError of
    line 239 (the specification's ConfigurationError) in exactly the
    world the lookup left: nothing is read or written between the
    lookup and the failure, and what the lookup did stays done. When
    driver resolution or the lookup fails, [get] fails with the error
    of that step in the world that step left. *)
Theorem no_policy_fails E self session w :
  let config := configuration (generate_config self) in
  policies_set config = 0 →
  let run := get E self session w in
  raised (fst run) = true ∧
  (∀ e, resolve_driver E config w = (Raise e, w) → run = (Raise e, w)) ∧
  (∀ driver e w1,
     resolve_driver E config w = (Ok driver, w) →
     get_collection E session (collection_id config) w = (Raise e, w1) →
     run = (Raise e, w1)) ∧
  (∀ driver coll w1,
     resolve_driver E config w = (Ok driver, w) →
     get_collection E session (collection_id config) w = (Ok coll, w1) →
     run = (Raise (ValueError
                     "One of `label` or `datamodel` configurations should be given."),
            w1)).
Proof.
  intros config Hset run.
  assert (∀ coll, select E config coll =
            raise (ValueError
              "One of `label` or `datamodel` configurations should be given."))
    as Hsel.
  { intros coll. unfold select. unfold policies_set in Hset.
    destruct (truthy (label config)); [simpl in Hset; lia|].
    destruct (truthy (datamodel config)); [simpl in Hset; lia|].
    destruct (store_collection config); [simpl in Hset; lia|done]. }
  assert (∀ driver coll w1,
            resolve_driver E config w = (Ok driver, w) →
            get_collection E session (collection_id config) w = (Ok coll, w1) →
            run = (Raise (ValueError
                     "One of `label` or `datamodel` configurations should be given."),
                   w1)) as Hselect.
  { intros driver coll w1 Hdriver Hcoll. subst run.
    eapply get_select_fails; [done..|]. fold config. by rewrite Hsel. }
  split; [|split; [|split]].
  - pose proof (resolve_driver_pure E config w) as H1.
    destruct (resolve_driver E config w) as [[driver|e] w0] eqn:Hdriver;
      simpl in H1; subst w0.
    2: { subst run. by rewrite (get_driver_fails E self session w e Hdriver). }
    destruct (get_collection E session (collection_id config) w)
      as [[coll|e] w1] eqn:Hcoll.
    + by rewrite (Hselect driver coll w1).
    + subst run.
      by rewrite (get_collection_fails E self session w driver e w1 Hdriver Hcoll).
  - intros e Hdriver. subst run. by apply get_driver_fails.
  - intros driver e w1 Hdriver Hcoll. subst run. by eapply get_collection_fails.
  - exact Hselect.
Qed.

Lemma no_policy_fails_witness :
  policies_set no_policy = 0 ∧
  get env (strategy no_policy) session world =
    (Raise (ValueError
              "One of `label` or `datamodel` configurations should be given."),
     world).
Proof.
  split; [reflexivity|].
  exact (proj2 (proj2 (proj2
           (no_policy_fails env (strategy no_policy) session world eq_refl)))
           "json" C world eq_refl eq_refl).
Defined.

(** C7: when [kb_document_iri] is set and the session has no
    'tripper.triplestore' settings, [get] fails with the KeyError of
    line 261 (the specification's MissingConfigurationError), and the
    world it leaves is the one the persistence step produced: what was
    written stays written. *)
Theorem missing_settings_keep_persisted E self session w driver coll inst w1 w2 w3 :
  let config := configuration (generate_config self) in
  truthy (kb_document_iri config) = true →
  truthy_dict (get_settings session "tripper.triplestore") = false →
  resolve_driver E config w = (Ok driver, w) →
  get_collection E session (collection_id config) w = (Ok coll, w1) →
  select E config coll w1 = (Ok inst, w2) →
  persist E config driver inst w2 = (Ok tt, w3) →
  get E self session w =
    (Raise (KeyError
              ("The `kb_document_iri` configuration requires that a " +:+
               "'tripper.triplestore' settings has been added using the " +:+
               "application/vnd.dlite-settings strategy.")),
     w3).
Proof.
  intros config Hiri Hsettings Hdriver Hcoll Hsel Hpersist.
  rewrite (get_selected E self session w driver coll w1 inst w2 Hdriver Hcoll Hsel).
  unfold finish. fold config. rewrite (bind_ok _ _ _ _ _ Hpersist).
  unfold document. by rewrite Hiri, Hsettings.
Qed.

Lemma missing_settings_keep_persisted_witness :
  truthy (kb_document_iri documented) = true ∧
  truthy_dict (get_settings session "tripper.triplestore") = false ∧
  persist env documented "json" (AnInstance image) world =
    (Ok tt, set_files (insert "/tmp/out.json" (dump (AnInstance image))) world) ∧
  get env (strategy documented) session world =
    (Raise (KeyError
              ("The `kb_document_iri` configuration requires that a " +:+
               "'tripper.triplestore' settings has been added using the " +:+
               "application/vnd.dlite-settings strategy.")),
     set_files (insert "/tmp/out.json" (dump (AnInstance image))) world).
Proof.
  split; [reflexivity|]. split; [reflexivity|]. split; [reflexivity|].
  exact (missing_settings_keep_persisted env (strategy documented) session world
           "json" C (AnInstance image) world world _
           eq_refl eq_refl eq_refl eq_refl eq_refl eq_refl).
Defined.

(** C8: whatever the service answers to the calls of the documentation
    step, and whether they return or raise, the calls one run of [get]
    adds to the log are none at all, or one opening of a connection
    first and one closing last, with no opening or closing between. *)
Theorem connection_closed_once E self session w :
  ∃ evs, kb (snd (get E self session w)) = kb w ++ evs ∧ closed_once evs.
Proof.
  apply get_extends; [by left|]. intros inst w'.
  destruct (document_extends E (configuration (generate_config self)) session inst w')
    as (evs & Hkb & Hevs).
  exists evs. split; [done|].
  destruct Hevs as [->|(settings & mid & -> & Hmid)]; [by left|right].
  exists settings, mid. split; [done|].
  eapply Forall_impl; [exact Hmid|]. by intros [].
Qed.

Lemma connection_closed_once_witness :
  fst (get env (strategy computed) session_kb world) = Raise (NameError "inputs") ∧
  ∃ evs,
    kb (snd (get env (strategy computed) session_kb world)) = kb world ++ evs ∧
    closed_once evs.
Proof.
  split; [reflexivity|].
  exact (connection_closed_once env (strategy computed) session_kb world).
Defined.

(** C9: with [store_collection] the selection in force and a
    [store_collection_id], what [get] persists is a copy under that id
    with the instances and relations of the collection; once [get] is
    through a collection of that content is live under the new id,
    and the collection is live, as it was, wherever it was before.
    Without an id what [get] persists is the collection itself. *)
Theorem whole_collection E self session w driver coll w1 :
  let config := configuration (generate_config self) in
  let newid := the (store_collection_id config) in
  let w' := snd (get E self session w) in
  truthy (label config) = false →
  truthy (datamodel config) = false →
  store_collection config = true →
  resolve_driver E config w = (Ok driver, w) →
  get_collection E session (collection_id config) w = (Ok coll, w1) →
  if truthy (store_collection_id config) then
    (∃ c, uuid c = newid ∧ instances c = instances coll ∧
          relations c = relations coll ∧
          get E self session w =
            finish E config session driver coll (ACollection c)
              (set_collections (insert newid c) w1)) ∧
    (∃ c', collections w' !! newid = Some c' ∧ uuid c' = newid ∧
           instances c' = instances coll ∧ relations c' = relations coll) ∧
    (∀ i, i ≠ newid → collections w1 !! i = Some coll →
          collections w' !! i = Some coll)
  else
    get E self session w =
      finish E config session driver coll (ACollection coll) w1.
Proof.
  intros config newid w' Hlabel Hmodel Hstore Hdriver Hcoll.
  subst config. set (config := configuration (generate_config self)) in *.
  destruct (truthy (store_collection_id config)) eqn:Hid.
  - set (c := {| uuid := newid; instances := instances coll;
                 relations := relations coll |}).
    assert (get E self session w =
              finish E config session driver coll (ACollection c)
                (set_collections (insert newid c) w1)) as Hget.
    { eapply get_selected; [done..|]. fold config.
      unfold select. by rewrite Hlabel, Hmodel, Hstore, Hid. }
    split; [by exists c|].
    subst w'. rewrite Hget.
    destruct (finish_collections E self session driver coll (ACollection c)
                (set_collections (insert newid c) w1)) as [Hw|Hw];
      fold config in Hw; rewrite Hw; simpl.
    + split.
      * exists c. by rewrite lookup_insert_eq.
      * intros i Hi Hreg. by rewrite lookup_insert_ne.
    + split.
      * destruct (decide (uuid coll = newid)) as [Heq|Hne].
        -- exists coll. by rewrite Heq, lookup_insert_eq.
        -- exists c. rewrite lookup_insert_ne by done.
           by rewrite lookup_insert_eq.
      * intros i Hi Hreg.
        destruct (decide (uuid coll = i)) as [<-|Hne].
        -- by rewrite lookup_insert_eq.
        -- rewrite lookup_insert_ne by done. by rewrite lookup_insert_ne.
  - eapply get_selected; [done..|]. fold config.
    unfold select. by rewrite Hlabel, Hmodel, Hstore, Hid.
Qed.

Lemma whole_collection_witness :
  store_collection copy1 = true ∧
  truthy (store_collection_id copy1) = true ∧
  (∃ c', collections (snd (get env (strategy copy1) session world)) !! "copy1"
           = Some c' ∧
         uuid c' = "copy1" ∧ instances c' = instances C ∧
         relations c' = relations C) ∧
  collections (snd (get env (strategy copy1) session world)) !! uuid C = Some C.
Proof.
  split; [reflexivity|]. split; [reflexivity|].
  pose proof (whole_collection env (strategy copy1) session world "json" C world
                eq_refl eq_refl eq_refl eq_refl eq_refl) as H.
  hnf in H. destruct H as (_ & Hnew & Hold).
  split; [exact Hnew|]. apply Hold; [discriminate|reflexivity].
Defined.

(** C10: every resource description that a run of [get] hands to
    [save_container] has as its driver the [driver] field of the
    configuration. When that field is unset or empty, so that the
    driver used to persist was resolved from the media type, the
    recorded driver is unset or empty too, and is not the (non-empty)
    name that was resolved. *)
Theorem recorded_driver E self session w r iri :
  let config := configuration (generate_config self) in
  In (SaveContainer r iri)
     (drop (length (kb w)) (kb (snd (get E self session w)))) →
  res_driver r = driver config ∧
  (truthy (driver config) = false →
   truthy (res_driver r) = false ∧
   ∀ d, resolve_driver E config w = (Ok d, w) → d ≠ "" → res_driver r ≠ Some d).
Proof.
  intros config Hin.
  assert (res_driver r = driver config) as Hr.
  { destruct (get_extends E (Forall (records_configured_driver config))
                self session) with (w := w) as (evs & Hkb & Hevs).
    - constructor.
    - intros inst w0.
      destruct (document_extends E config session inst w0) as (evs & Hkb & Hevs).
      exists evs. split; [done|].
      destruct Hevs as [->|(settings & mid & -> & Hmid)]; [constructor|].
      constructor; [done|]. apply Forall_app. split; [|by repeat constructor].
      eapply Forall_impl; [exact Hmid|].
      intros [] Hev; simpl in *; try done. by destruct Hev as [-> _].
    - rewrite Hkb, drop_app_length in Hin.
      rewrite Forall_forall in Hevs.
      apply list_elem_of_In in Hin. exact (Hevs _ Hin). }
  split; [done|]. intros Hunset. rewrite Hr. split; [done|].
  intros d _ Hd Heq. rewrite Heq in Hunset. simpl in Hunset.
  apply negb_false_iff, String.eqb_eq in Hunset. done.
Qed.

Lemma recorded_driver_witness :
  let r := resource_of documented (AnInstance image) in
  fst (resolve_driver env documented world) = Ok "json" ∧
  In (SaveContainer r "http://example.com/kb#output")
     (drop (length (kb world))
        (kb (snd (get env (strategy documented) session_kb world)))) ∧
  res_driver r = None ∧
  res_driver r ≠ Some "json".
Proof.
  intros r.
  assert (In (SaveContainer r "http://example.com/kb#output")
            (drop (length (kb world))
               (kb (snd (get env (strategy documented) session_kb world)))))
    as Hin by (vm_compute; right; left; reflexivity).
  split; [reflexivity|]. split; [exact Hin|].
  destruct (recorded_driver env (strategy documented) session_kb world r
              "http://example.com/kb#output" Hin) as [Hr Hunset].
  split; [exact Hr|].
  destruct (Hunset eq_refl) as [_ Hne].
  apply (Hne "json"); [reflexivity|discriminate].
Defined.

End Properties.

(** ** Anatomy of a run *)

Section Anatomy.

Context (E : Env) (self : DLiteGenerateStrategy) (session : option Session).

Let config := configuration (generate_config self).

(** Where the statements after the selection can stop. *)
Lemma finish_cases driver coll inst w :
  (∃ e w3, persist E config driver inst w = (Raise e, w3) ∧
           finish E config session driver coll inst w = (Raise e, w3)) ∨
  (∃ w3 e w4, persist E config driver inst w = (Ok tt, w3) ∧
              document E config session inst w3 = (Raise e, w4) ∧
              finish E config session driver coll inst w = (Raise e, w4)) ∨
  (∃ w3 w4, persist E config driver inst w = (Ok tt, w3) ∧
            document E config session inst w3 = (Ok tt, w4) ∧
            finish E config session driver coll inst w =
              (Ok {| update_collection_id := uuid coll |},
               set_collections (insert (uuid coll) coll) w4)).
Proof.
  unfold finish, bind.
  destruct (persist E config driver inst w) as [[[]|e] w3].
  2: { left. exists e, w3. by split. }
  destruct (document E config session inst w3) as [[[]|e] w4] eqn:Hdoc.
  - right; right. by exists w3, w4.
  - right; left. by exists w3, e, w4.
Qed.

(** Where a run of [get] can stop before the selection is made. *)
Lemma get_cases w :
  (∃ e, resolve_driver E config w = (Raise e, w) ∧
        get E self session w = (Raise e, w)) ∨
  (∃ driver e w1,
     resolve_driver E config w = (Ok driver, w) ∧
     get_collection E session (collection_id config) w = (Raise e, w1) ∧
     get E self session w = (Raise e, w1)) ∨
  (∃ driver coll w1 e w2,
     resolve_driver E config w = (Ok driver, w) ∧
     get_collection E session (collection_id config) w = (Ok coll, w1) ∧
     select E config coll w1 = (Raise e, w2) ∧
     get E self session w = (Raise e, w2)) ∨
  (∃ driver coll w1 inst w2,
     resolve_driver E config w = (Ok driver, w) ∧
     get_collection E session (collection_id config) w = (Ok coll, w1) ∧
     select E config coll w1 = (Ok inst, w2) ∧
     get E self session w = finish E config session driver coll inst w2).
Proof.
  pose proof (resolve_driver_pure E config w) as H1.
  destruct (resolve_driver E config w) as [[driver|e] w0] eqn:Hdriver;
    simpl in H1; subst w0.
  2: { left. exists e. split; [done|]. by apply get_driver_fails. }
  destruct (get_collection E session (collection_id config) w)
    as [[coll|e] w1] eqn:Hcoll.
  2: { right; left. exists driver, e, w1. repeat split; try done.
       by eapply get_collection_fails. }
  destruct (select E config coll w1) as [[inst|e] w2] eqn:Hsel.
  - right; right; right. exists driver, coll, w1, inst, w2.
    repeat split; try done. by eapply get_selected.
  - right; right; left. exists driver, coll, w1, e, w2.
    repeat split; try done. by eapply get_select_fails.
Qed.

(** A run that returns has been through every statement. *)
Lemma get_ok_inv w u w' :
  get E self session w = (Ok u, w') →
  ∃ driver coll w1 inst w2 w3 w4,
    resolve_driver E config w = (Ok driver, w) ∧
    get_collection E session (collection_id config) w = (Ok coll, w1) ∧
    select E config coll w1 = (Ok inst, w2) ∧
    persist E config driver inst w2 = (Ok tt, w3) ∧
    document E config session inst w3 = (Ok tt, w4) ∧
    u = {| update_collection_id := uuid coll |} ∧
    w' = set_collections (insert (uuid coll) coll) w4.
Proof.
  intros Hget.
  destruct (get_cases w) as
    [(e & _ & H)|[(driver & e & w1 & _ & _ & H)|
     [(driver & coll & w1 & e & w2 & _ & _ & _ & H)|
      (driver & coll & w1 & inst & w2 & Hd & Hc & Hs & H)]]];
    rewrite H in Hget; try discriminate.
  destruct (finish_cases driver coll inst w2) as
    [(e & w3 & _ & Hf)|[(w3 & e & w4 & _ & _ & Hf)|(w3 & w4 & Hp & Hdoc & Hf)]];
    rewrite Hf in Hget; try discriminate.
  injection Hget as <- <-.
  by exists driver, coll, w1, inst, w2, w3, w4.
Qed.

End Anatomy.

(** ** Further properties of [get] *)

Section Selection.

Import Fixture Scenario.

(** X1: selection by label with a location. When the label names an
    instance of the collection, the plugin serialises it and no
    documentation is asked for, [get] returns the id of the collection,
    the file at the location holds the plugin's bytes for exactly that
    instance, and nothing else has changed but the publication of the
    collection. *)
Theorem label_persisted_at_location E self session w driver coll w1 inst b :
  let config := configuration (generate_config self) in
  truthy (label config) = true →
  instances coll !! the (label config) = Some inst →
  truthy (location config) = true →
  truthy (kb_document_iri config) = false →
  resolve_driver E config w = (Ok driver, w) →
  get_collection E session (collection_id config) w = (Ok coll, w1) →
  plugin_dump E driver (options config) (AnInstance inst) = Ok b →
  get E self session w =
    (Ok {| update_collection_id := uuid coll |},
     set_collections (insert (uuid coll) coll)
       (set_files (insert (the (location config)) b) w1)).
Proof.
  intros config Hlabel Hinst Hloc Hiri Hdriver Hcoll Hdump.
  assert (select E config coll w1 = (Ok (AnInstance inst), w1)) as Hsel.
  { unfold select, getitem. by rewrite Hlabel, Hinst. }
  rewrite (get_selected E self session w driver coll w1 _ w1 Hdriver Hcoll Hsel).
  unfold finish, bind, persist, save, document. fold config.
  by rewrite Hloc, Hdump, Hiri.
Qed.

Lemma label_persisted_at_location_witness :
  truthy (label to_location) = true ∧
  instances C !! "image" = Some image ∧
  get env (strategy to_location) session world =
    (Ok {| update_collection_id := uuid C |},
     set_collections (insert (uuid C) C)
       (set_files (insert "/tmp/out.json" (dump (AnInstance image))) world)).
Proof.
  split; [reflexivity|]. split; [reflexivity|].
  exact (label_persisted_at_location env (strategy to_location) session world
           "json" C world image (dump (AnInstance image))
           eq_refl eq_refl eq_refl eq_refl eq_refl eq_refl eq_refl).
Defined.

(** X2: a label that names nothing in the collection. [get] fails with
    the error of the lookup in the state the collection lookup left:
    the plugin is not called and nothing is written or documented,
    whatever [datamodel] and [store_collection] say. *)
Theorem missing_label_writes_nothing E self session w driver coll w1 :
  let config := configuration (generate_config self) in
  truthy (label config) = true →
  instances coll !! the (label config) = None →
  resolve_driver E config w = (Ok driver, w) →
  get_collection E session (collection_id config) w = (Ok coll, w1) →
  get E self session w = (Raise (NotFoundError (the (label config))), w1).
Proof.
  intros config Hlabel Hinst Hdriver Hcoll.
  eapply get_select_fails; [done..|]. fold config.
  unfold select, getitem. by rewrite Hlabel, Hinst.
Qed.

Lemma missing_label_writes_nothing_witness :
  truthy (label mislabelled) = true ∧
  instances C !! "picture" = None ∧
  get env (strategy mislabelled) session world =
    (Raise (NotFoundError "picture"), world).
Proof.
  split; [reflexivity|]. split; [reflexivity|].
  exact (missing_label_writes_nothing env (strategy mislabelled) session world
           "json" C world eq_refl eq_refl eq_refl eq_refl).
Defined.

End Selection.

Section Persistence.

Import Fixture Scenario.

(** X3: an explicit driver has priority. When [driver] is set the
    media-type table is not consulted: a run of [get] is the same
    whatever the table holds, so a media type without a registered
    driver is no error. *)
Theorem explicit_driver_ignores_table E table self session w :
  truthy (driver (configuration (generate_config self))) = true →
  get (with_mediatypes table E) self session w = get E self session w.
Proof.
  intros Hdriver. unfold get, resolve_driver. by rewrite Hdriver.
Qed.

Lemma explicit_driver_ignores_table_witness :
  truthy (driver explicit_driver) = true ∧
  get_driver env (mediaType explicit_driver)
    = Raise (UnsupportedMediaTypeError "application/x-unknown") ∧
  get (with_mediatypes [] env) (strategy explicit_driver) session world
    = get env (strategy explicit_driver) session world ∧
  fst (get env (strategy explicit_driver) session world)
    = Ok {| update_collection_id := uuid C |}.
Proof.
  split; [reflexivity|]. split; [reflexivity|].
  split; [|reflexivity].
  exact (explicit_driver_ignores_table env [] (strategy explicit_driver)
           session world eq_refl).
Defined.

Lemma files_after_selection E self session w coll w1 inst w2 :
  get_collection E session
    (collection_id (configuration (generate_config self))) w = (Ok coll, w1) →
  select E (configuration (generate_config self)) coll w1 = (Ok inst, w2) →
  files w2 = files w ∧ datacache w2 = datacache w ∧ kb w2 = kb w.
Proof.
  set (config := configuration (generate_config self)).
  intros Hcoll Hsel.
  pose proof (get_collection_keeps E files session (collection_id config)
                (fun _ _ => eq_refl) w) as Hf1.
  pose proof (get_collection_keeps E datacache session (collection_id config)
                (fun _ _ => eq_refl) w) as Hc1.
  pose proof (get_collection_keeps E kb session (collection_id config)
                (fun _ _ => eq_refl) w) as Hk1.
  pose proof (select_keeps E files config coll (fun _ _ => eq_refl) w1) as Hf2.
  pose proof (select_keeps E datacache config coll (fun _ _ => eq_refl) w1) as Hc2.
  pose proof (select_keeps E kb config coll (fun _ _ => eq_refl) w1) as Hk2.
  rewrite Hcoll in Hf1, Hc1, Hk1. rewrite Hsel in Hf2, Hc2, Hk2. simpl in *.
  repeat split; congruence.
Qed.

Lemma files_before_selection E self session w coll w1 e w2 :
  get_collection E session
    (collection_id (configuration (generate_config self))) w = (Ok coll, w1) →
  select E (configuration (generate_config self)) coll w1 = (Raise e, w2) →
  files w2 = files w ∧ datacache w2 = datacache w ∧ kb w2 = kb w.
Proof.
  set (config := configuration (generate_config self)).
  intros Hcoll Hsel.
  pose proof (get_collection_keeps E files session (collection_id config)
                (fun _ _ => eq_refl) w) as Hf1.
  pose proof (get_collection_keeps E datacache session (collection_id config)
                (fun _ _ => eq_refl) w) as Hc1.
  pose proof (get_collection_keeps E kb session (collection_id config)
                (fun _ _ => eq_refl) w) as Hk1.
  pose proof (select_keeps E files config coll (fun _ _ => eq_refl) w1) as Hf2.
  pose proof (select_keeps E datacache config coll (fun _ _ => eq_refl) w1) as Hc2.
  pose proof (select_keeps E kb config coll (fun _ _ => eq_refl) w1) as Hk2.
  rewrite Hcoll in Hf1, Hc1, Hk1. rewrite Hsel in Hf2, Hc2, Hk2. simpl in *.
  repeat split; congruence.
Qed.

Lemma files_after_persistence E config session inst w r w' :
  document E config session inst w = (r, w') →
  files w' = files w ∧ datacache w' = datacache w.
Proof.
  intros Hdoc.
  pose proof (document_keeps E files config session inst (fun _ _ => eq_refl) w) as Hf.
  pose proof (document_keeps E datacache config session inst (fun _ _ => eq_refl) w)
    as Hc.
  rewrite Hdoc in Hf, Hc. done.
Qed.

(** X4: with a location, what [get] does between the collection
    lookup and the publication of the collection changes no file but
    the location and leaves the data cache alone. Once the driver is
    resolved and the collection obtained, a run ends, whether it raises
    or returns, in a world that has the files other than the location
    and the cache as the lookup left them, followed, when the run
    returns, by [update_collection] alone. *)
Theorem only_location_written E self session w driver coll w1 p :
  let config := configuration (generate_config self) in
  truthy (location config) = true →
  p ≠ the (location config) →
  resolve_driver E config w = (Ok driver, w) →
  get_collection E session (collection_id config) w = (Ok coll, w1) →
  ∃ w4,
    files w4 !! p = files w1 !! p ∧
    datacache w4 = datacache w1 ∧
    ((∃ e, get E self session w = (Raise e, w4)) ∨
     get E self session w =
       (Ok {| update_collection_id := uuid coll |},
        snd (update_collection coll w4))).
Proof.
  intros config Hloc Hp Hdriver Hcoll.
  pose proof (select_keeps E files config coll (fun _ _ => eq_refl) w1) as Hf2.
  pose proof (select_keeps E datacache config coll (fun _ _ => eq_refl) w1) as Hc2.
  destruct (select E config coll w1) as [[inst|e] w2] eqn:Hsel; simpl in Hf2, Hc2.
  2: { exists w2. rewrite Hf2, Hc2. split; [done|]. split; [done|].
       left. exists e. by eapply get_select_fails. }
  rewrite (get_selected E self session w driver coll w1 inst w2 Hdriver Hcoll Hsel).
  fold config.
  assert (files (snd (persist E config driver inst w2)) !! p = files w2 !! p ∧
          datacache (snd (persist E config driver inst w2)) = datacache w2)
    as [Hfp Hcp].
  { unfold persist, save. rewrite Hloc.
    destruct (plugin_dump E driver (options config) inst); simpl; [|done].
    by rewrite lookup_insert_ne. }
  destruct (finish_cases E self session driver coll inst w2) as
    [(e & w3 & Hp3 & Hf)|[(w3 & e & w4 & Hp3 & Hdoc & Hf)|
     (w3 & w4 & Hp3 & Hdoc & Hf)]];
    fold config in Hp3, Hf; rewrite Hf; rewrite Hp3 in Hfp, Hcp; simpl in *.
  - exists w3. rewrite Hfp, Hcp, Hf2, Hc2. split; [done|]. split; [done|].
    left. by exists e.
  - destruct (files_after_persistence E _ _ _ _ _ _ Hdoc) as [Hf4 Hc4].
    exists w4. rewrite Hf4, Hc4, Hfp, Hcp, Hf2, Hc2. split; [done|]. split; [done|].
    left. by exists e.
  - destruct (files_after_persistence E _ _ _ _ _ _ Hdoc) as [Hf4 Hc4].
    exists w4. rewrite Hf4, Hc4, Hfp, Hcp, Hf2, Hc2. split; [done|]. split; [done|].
    by right.
Qed.

Lemma only_location_written_witness :
  truthy (location to_location) = true ∧
  ∃ w4,
    files w4 !! "/tmp/other.json" = files world !! "/tmp/other.json" ∧
    datacache w4 = datacache world ∧
    ((∃ e, get env (strategy to_location) session world = (Raise e, w4)) ∨
     get env (strategy to_location) session world =
       (Ok {| update_collection_id := uuid C |},
        snd (update_collection C w4))).
Proof.
  split; [reflexivity|].
  apply (only_location_written env (strategy to_location) session world "json" C
           world "/tmp/other.json");
    [reflexivity|discriminate|reflexivity|reflexivity].
Defined.

End Persistence.

Section CacheBranch.

Import Fixture Scenario.

(** X5: without a location no run of [get] returns. When the temporary
    directory is a new one, [get] raises, nothing is stored in the
    cache and nothing is documented in the knowledge graph, whatever
    the selection, the cache key and the documentation fields are. *)
Theorem no_location_always_fails E self session w :
  let config := configuration (generate_config self) in
  truthy (location config) = false →
  fresh_tmpdir E w →
  raised (fst (get E self session w)) = true ∧
  datacache (snd (get E self session w)) = datacache w ∧
  kb (snd (get E self session w)) = kb w.
Proof.
  intros config Hloc Hfresh.
  split; [|split; [by apply get_never_caches|]].
  - destruct (get_cases E self session w) as
      [(e & _ & H)|[(driver & e & w1 & _ & Hc & H)|
       [(driver & coll & w1 & e & w2 & _ & Hc & Hs & H)|
        (driver & coll & w1 & inst & w2 & _ & Hc & Hs & H)]]];
      rewrite H; try done.
    destruct (files_after_selection E self session w coll w1 inst w2 Hc Hs)
      as (Hf2 & _ & _).
    assert (fresh_tmpdir E w2) as Hfresh2.
    { destruct Hfresh as [Habs Hnone]. split; [done|].
      intros p Hp. rewrite Hf2. by apply Hnone. }
    destruct (persist_to_cache_never_caches E config driver inst w2 Hloc Hfresh2)
      as [Hraised _].
    fold config.
    destruct (finish_cases E self session driver coll inst w2) as
      [(e & w3 & Hp3 & Hf)|[(w3 & e & w4 & Hp3 & Hdoc & Hf)|
       (w3 & w4 & Hp3 & Hdoc & Hf)]];
      fold config in Hp3, Hf; rewrite Hf; rewrite Hp3 in Hraised; done.
  - destruct (get_cases E self session w) as
      [(e & _ & H)|[(driver & e & w1 & _ & Hc & H)|
       [(driver & coll & w1 & e & w2 & _ & Hc & Hs & H)|
        (driver & coll & w1 & inst & w2 & _ & Hc & Hs & H)]]];
      rewrite H; simpl.
    + done.
    + pose proof (get_collection_keeps E kb session (collection_id config)
                    (fun _ _ => eq_refl) w) as Hk1.
      fold config in Hc. by rewrite Hc in Hk1.
    + by destruct (files_before_selection E self session w coll w1 e w2 Hc Hs)
        as (_ & _ & ->).
    + destruct (files_after_selection E self session w coll w1 inst w2 Hc Hs)
        as (Hf2 & _ & Hk2).
      assert (fresh_tmpdir E w2) as Hfresh2.
      { destruct Hfresh as [Habs Hnone]. split; [done|].
        intros p Hp. rewrite Hf2. by apply Hnone. }
      destruct (persist_to_cache_never_caches E config driver inst w2 Hloc Hfresh2)
        as [Hraised _].
      pose proof (persist_keeps E kb config driver inst (fun _ _ => eq_refl)
                    (fun _ _ => eq_refl) w2) as Hk3.
      fold config.
      destruct (finish_cases E self session driver coll inst w2) as
        [(e & w3 & Hp3 & Hf)|[(w3 & e & w4 & Hp3 & Hdoc & Hf)|
         (w3 & w4 & Hp3 & Hdoc & Hf)]];
        fold config in Hp3, Hf; rewrite Hf; rewrite Hp3 in Hraised, Hk3;
        try done.
      simpl in *. congruence.
Qed.

Lemma no_location_always_fails_witness :
  truthy (location to_cache) = false ∧
  fresh_tmpdir env world ∧
  raised (fst (get env (strategy to_cache) session_kb world)) = true ∧
  datacache (snd (get env (strategy to_cache) session_kb world)) = datacache world ∧
  kb (snd (get env (strategy to_cache) session_kb world)) = kb world.
Proof.
  assert (fresh_tmpdir env world) as Hfresh.
  { split; [reflexivity|]. intros p _. apply lookup_empty. }
  split; [reflexivity|]. split; [exact Hfresh|].
  exact (no_location_always_fails env (strategy to_cache) session_kb world
           eq_refl Hfresh).
Defined.

End CacheBranch.

Section Documentation.

Import Fixture Scenario.

Context (E : Env) (self : DLiteGenerateStrategy) (session : option Session).

Let config := configuration (generate_config self).

(** A resource is documented only by a run that got through the
    persistence, and it is the resource of the instance selected. *)
Lemma documented_inv w r iri :
  In (SaveContainer r iri)
     (drop (length (kb w)) (kb (snd (get E self session w)))) →
  ∃ driver coll w1 inst w2 w3,
    resolve_driver E config w = (Ok driver, w) ∧
    get_collection E session (collection_id config) w = (Ok coll, w1) ∧
    select E config coll w1 = (Ok inst, w2) ∧
    persist E config driver inst w2 = (Ok tt, w3) ∧
    r = resource_of config inst ∧
    iri = the (kb_document_iri config) ∧
    files (snd (get E self session w)) = files w3.
Proof.
  intros Hin.
  destruct (get_cases E self session w) as
    [(e & _ & H)|[(driver & e & w1 & _ & Hc & H)|
     [(driver & coll & w1 & e & w2 & _ & Hc & Hs & H)|
      (driver & coll & w1 & inst & w2 & Hd & Hc & Hs & H)]]];
    fold config in H; try fold config in Hc; try fold config in Hs;
    try fold config in Hd; rewrite H in Hin |- *; simpl in Hin.
  - by rewrite drop_all in Hin.
  - pose proof (get_collection_keeps E kb session (collection_id config)
                  (fun _ _ => eq_refl) w) as Hk1.
    rewrite Hc in Hk1. simpl in Hk1. by rewrite Hk1, drop_all in Hin.
  - destruct (files_before_selection E self session w coll w1 e w2 Hc Hs)
      as (_ & _ & Hk). by rewrite Hk, drop_all in Hin.
  - destruct (files_after_selection E self session w coll w1 inst w2 Hc Hs)
      as (_ & _ & Hk2).
    pose proof (persist_keeps E kb config driver inst (fun _ _ => eq_refl)
                  (fun _ _ => eq_refl) w2) as Hk3.
    assert (∀ w3 rd w4,
              persist E config driver inst w2 = (Ok tt, w3) →
              document E config session inst w3 = (rd, w4) →
              In (SaveContainer r iri) (drop (length (kb w)) (kb w4)) →
              r = resource_of config inst ∧ iri = the (kb_document_iri config) ∧
              files w4 = files w3) as Hdocumented.
    { intros w3 rd w4 Hp3 Hdoc Hin4. rewrite Hp3 in Hk3. simpl in Hk3.
      destruct (document_extends E config session inst w3) as (evs & Hkb & Hevs).
      rewrite Hdoc in Hkb. simpl in Hkb.
      rewrite Hkb, Hk3, Hk2, drop_app_length in Hin4.
      destruct (files_after_persistence E _ _ _ _ _ _ Hdoc) as [Hf _].
      destruct Hevs as [->|(settings & mid & -> & Hmid)]; [done|].
      destruct Hin4 as [|Hin4]; [done|].
      apply in_app_or in Hin4 as [Hin4|[|[]]]; [|done].
      rewrite Forall_forall in Hmid.
      apply list_elem_of_In, Hmid in Hin4. by destruct Hin4. }
    destruct (finish_cases E self session driver coll inst w2) as
      [(e & w3 & Hp3 & Hf)|[(w3 & e & w4 & Hp3 & Hdoc & Hf)|
       (w3 & w4 & Hp3 & Hdoc & Hf)]];
      fold config in Hp3, Hf; try fold config in Hdoc;
      rewrite Hf in Hin |- *; simpl in Hin.
    + rewrite Hp3 in Hk3. simpl in Hk3.
      by rewrite Hk3, Hk2, drop_all in Hin.
    + destruct (Hdocumented w3 _ w4 Hp3 Hdoc Hin) as (-> & -> & Hfiles).
      by exists driver, coll, w1, inst, w2, w3.
    + destruct (Hdocumented w3 _ w4 Hp3 Hdoc Hin) as (-> & -> & Hfiles).
      by exists driver, coll, w1, inst, w2, w3.
Qed.

End Documentation.

Section Documented.

Import Fixture Scenario.

(** X6: every resource description a run of [get] hands to
    [save_container] is saved under [kb_document_iri] and takes its
    download URL and its options from the configuration as they are;
    its media type is the configured one, or
    ["application/vnd.dlite-parse"] when none is configured. *)
Theorem documented_fields E self session w r iri :
  let config := configuration (generate_config self) in
  In (SaveContainer r iri)
     (drop (length (kb w)) (kb (snd (get E self session w)))) →
  iri = the (kb_document_iri config) ∧
  downloadUrl r = location config ∧
  res_options r = options config ∧
  res_mediaType r =
    (if truthy (mediaType config) then the (mediaType config)
     else "application/vnd.dlite-parse").
Proof.
  intros config Hin.
  destruct (documented_inv E self session w r iri Hin)
    as (driver & coll & w1 & inst & w2 & w3 & _ & _ & _ & _ & -> & -> & _).
  done.
Qed.

Lemma documented_fields_witness :
  let r := resource_of computed (AnInstance image) in
  In (SaveContainer r "http://example.com/kb#output")
     (drop (length (kb world))
        (kb (snd (get env (strategy computed) session_kb world)))) ∧
  downloadUrl r = Some "/tmp/out.json" ∧
  res_options r = None ∧
  res_mediaType r = "application/vnd.dlite-parse".
Proof.
  intros r.
  assert (In (SaveContainer r "http://example.com/kb#output")
            (drop (length (kb world))
               (kb (snd (get env (strategy computed) session_kb world)))))
    as Hin by (vm_compute; right; left; reflexivity).
  split; [exact Hin|].
  exact (proj2 (documented_fields env (strategy computed) session_kb world r
                  "http://example.com/kb#output" Hin)).
Defined.

(** X7: the metadata documented. With [datamodel] set it is that URI,
    also when the instance was selected by label and is of another
    datamodel; with [datamodel] unset and a label, it is the datamodel
    of the instance the label names. *)
Theorem documented_metadata E self session w r iri :
  let config := configuration (generate_config self) in
  In (SaveContainer r iri)
     (drop (length (kb w)) (kb (snd (get E self session w)))) →
  if truthy (datamodel config) then res_metadata r = the (datamodel config)
  else
    truthy (label config) = true →
    ∃ coll w1 inst,
      get_collection E session (collection_id config) w = (Ok coll, w1) ∧
      instances coll !! the (label config) = Some inst ∧
      res_metadata r = inst_meta inst.
Proof.
  intros config Hin.
  destruct (documented_inv E self session w r iri Hin)
    as (driver & coll & w1 & inst & w2 & w3 & _ & Hc & Hs & _ & -> & _ & _).
  subst config. unfold resource_of. cbn [res_metadata].
  set (config := configuration (generate_config self)) in *.
  destruct (truthy (datamodel config)); [done|].
  intros Hlabel. unfold select, getitem in Hs. rewrite Hlabel in Hs.
  destruct (instances coll !! the (label config)) as [i|] eqn:Hi; [|done].
  injection Hs as <- _. by exists coll, w1, i.
Qed.

Lemma documented_metadata_witness :
  let r := resource_of documented_as_other (AnInstance image) in
  In (SaveContainer r "http://example.com/kb#output")
     (drop (length (kb world))
        (kb (snd (get env (strategy documented_as_other) session_kb world)))) ∧
  inst_meta image = Image ∧
  res_metadata r = Other.
Proof.
  intros r.
  assert (In (SaveContainer r "http://example.com/kb#output")
            (drop (length (kb world))
               (kb (snd (get env (strategy documented_as_other) session_kb world)))))
    as Hin by (vm_compute; right; left; reflexivity).
  split; [exact Hin|]. split; [reflexivity|].
  exact (documented_metadata env (strategy documented_as_other) session_kb world r
           "http://example.com/kb#output" Hin).
Defined.

(** X8: what is documented has been persisted. When the temporary
    directory is a new one, a resource description is handed to
    [save_container] only in a run with a location, and once the run is
    over the file at that location exists; the download URL documented
    is that location. *)
Theorem documented_only_when_persisted E self session w r iri :
  let config := configuration (generate_config self) in
  fresh_tmpdir E w →
  In (SaveContainer r iri)
     (drop (length (kb w)) (kb (snd (get E self session w)))) →
  truthy (location config) = true ∧
  downloadUrl r = location config ∧
  is_Some (files (snd (get E self session w)) !! the (location config)).
Proof.
  intros config Hfresh Hin.
  destruct (documented_inv E self session w r iri Hin)
    as (driver & coll & w1 & inst & w2 & w3 & _ & Hc & Hs & Hp & -> & _ & Hfiles).
  fold config in Hc, Hs, Hp, Hfiles.
  destruct (files_after_selection E self session w coll w1 inst w2 Hc Hs)
    as (Hf2 & _ & _).
  destruct (truthy (location config)) eqn:Hloc.
  - split; [done|]. split; [done|]. rewrite Hfiles.
    unfold persist, save in Hp. rewrite Hloc in Hp.
    destruct (plugin_dump E driver (options config) inst) as [b|e]; [|done].
    injection Hp as <-. simpl. rewrite lookup_insert_eq. by eexists.
  - assert (fresh_tmpdir E w2) as Hfresh2.
    { destruct Hfresh as [Habs Hnone]. split; [done|].
      intros p Hp'. rewrite Hf2. by apply Hnone. }
    destruct (persist_to_cache_never_caches E config driver inst w2 Hloc Hfresh2)
      as [Hraised _].
    by rewrite Hp in Hraised.
Qed.

Lemma documented_only_when_persisted_witness :
  let r := resource_of documented (AnInstance image) in
  fresh_tmpdir env world ∧
  In (SaveContainer r "http://example.com/kb#output")
     (drop (length (kb world))
        (kb (snd (get env (strategy documented) session_kb world)))) ∧
  truthy (location documented) = true ∧
  downloadUrl r = location documented ∧
  is_Some (files (snd (get env (strategy documented) session_kb world))
             !! "/tmp/out.json").
Proof.
  intros r.
  assert (fresh_tmpdir env world) as Hfresh.
  { split; [reflexivity|]. intros p _. apply lookup_empty. }
  assert (In (SaveContainer r "http://example.com/kb#output")
            (drop (length (kb world))
               (kb (snd (get env (strategy documented) session_kb world)))))
    as Hin by (vm_compute; right; left; reflexivity).
  split; [exact Hfresh|]. split; [exact Hin|].
  exact (documented_only_when_persisted env (strategy documented) session_kb world r
           "http://example.com/kb#output" Hfresh Hin).
Defined.

End Documented.

Section Assertions.

Import Fixture Scenario.

Lemma assertions_logged E iri (ctx : dict string) w w' :
  for_each ctx (fun '(prop, val) => ts_add E iri prop val) w = (Ok tt, w') →
  kb w' = kb w ++ ((fun pv => AddTriple iri (fst pv) (snd pv)) <$> ctx).
Proof.
  revert w. induction ctx as [|[prop val] ctx IH]; intros w; simpl.
  - intros [= <-]. by rewrite app_nil_r.
  - unfold bind at 1. unfold ts_add at 1.
    destruct (outcome (kb_add E iri prop val)) as [[]|e]; [|done].
    intros Hrest. rewrite (IH _ Hrest). simpl. by rewrite <- app_assoc.
Qed.

Lemma falsy_dict_empty {V} (o : option (dict V)) :
  truthy_dict o = false → default [] o = [].
Proof. by destruct o as [[|]|]. Qed.

(** The calls of a documentation step that returns, when no computation
    is to be documented. *)
Lemma document_returns E config session inst w w' :
  document E config session inst w = (Ok tt, w') →
  truthy (kb_document_iri config) = true →
  truthy (kb_document_computation config) = false →
  ∃ settings,
    get_settings session "tripper.triplestore" = Some settings ∧
    kb w' = kb w ++ Connect settings
                 :: SaveContainer (resource_of config inst)
                      (the (kb_document_iri config))
                 :: context_triples config ++ [Close].
Proof.
  intros Hdoc Hiri Hcomp. unfold document in Hdoc. rewrite Hiri in Hdoc.
  destruct (get_settings session "tripper.triplestore") as [settings|] eqn:Hset;
    [|done].
  destruct (truthy_dict (Some settings)); [|done]. simpl in Hdoc.
  exists settings. split; [done|].
  unfold bind, Triplestore in Hdoc.
  destruct (kb_connect E settings); [done|].
  unfold try_finally in Hdoc.
  destruct (record E config (resource_of config inst) (log (Connect settings) w))
    as [r1 w1] eqn:Hrec.
  unfold ts_close in Hdoc.
  destruct (outcome (kb_close E)) as [[]|e]; [|done].
  injection Hdoc as -> <-.
  unfold record, bind, save_container in Hrec.
  destruct (outcome (kb_save_container E _ _)) as [[]|e]; [|done].
  rewrite Hcomp in Hrec.
  unfold context_triples.
  destruct (truthy_dict (kb_document_context config)) eqn:Hctx.
  - match type of Hrec with
    | context [for_each ?c ?f ?w0] =>
        destruct (for_each c f w0) as [[[]|e] w2] eqn:Hadds; [|done]
    end.
    injection Hrec as <-.
    apply assertions_logged in Hadds. simpl. rewrite Hadds. simpl.
    by rewrite <- !app_assoc.
  - injection Hrec as <-. rewrite (falsy_dict_empty _ Hctx). simpl.
    by rewrite <- !app_assoc.
Qed.

(** X9: the context of the documentation. In a run of [get] that
    returns, with [kb_document_iri] set and no computation, the calls to
    the knowledge graph are exactly: the opening with the settings of
    the session, one [save_container], one triple on the documented IRI
    for each entry of [kb_document_context] in the order of the dict,
    and the closing. *)
Theorem context_asserted_in_order E self session w u w' :
  let config := configuration (generate_config self) in
  get E self session w = (Ok u, w') →
  truthy (kb_document_iri config) = true →
  truthy (kb_document_computation config) = false →
  ∃ settings r,
    get_settings session "tripper.triplestore" = Some settings ∧
    kb w' = kb w ++ Connect settings
                 :: SaveContainer r (the (kb_document_iri config))
                 :: context_triples config ++ [Close].
Proof.
  intros config Hget Hiri Hcomp.
  destruct (get_ok_inv E self session w u w' Hget)
    as (driver & coll & w1 & inst & w2 & w3 & w4 &
        _ & Hc & Hs & Hp & Hdoc & _ & ->).
  destruct (files_after_selection E self session w coll w1 inst w2 Hc Hs)
    as (_ & _ & Hk2).
  pose proof (persist_keeps E kb config driver inst (fun _ _ => eq_refl)
                (fun _ _ => eq_refl) w2) as Hk3.
  fold config in Hp. rewrite Hp in Hk3. simpl in Hk3.
  destruct (document_returns E _ _ _ _ _ Hdoc Hiri Hcomp) as (settings & Hset & Hkb).
  exists settings, (resource_of config inst). split; [done|].
  simpl. rewrite Hkb, Hk3, Hk2. done.
Qed.

Lemma context_asserted_in_order_witness :
  truthy (kb_document_iri documented) = true ∧
  truthy (kb_document_computation documented) = false ∧
  context_triples documented =
    [AddTriple "http://example.com/kb#output"
       "http://purl.org/dc/terms/creator" "generate"] ∧
  ∃ settings r,
    get_settings session_kb "tripper.triplestore" = Some settings ∧
    kb (snd (get env (strategy documented) session_kb world)) =
      kb world ++ Connect settings
        :: SaveContainer r "http://example.com/kb#output"
        :: context_triples documented ++ [Close].
Proof.
  split; [reflexivity|]. split; [reflexivity|]. split; [reflexivity|].
  exact (context_asserted_in_order env (strategy documented) session_kb world
           {| update_collection_id := uuid C |}
           (snd (get env (strategy documented) session_kb world))
           eq_refl eq_refl eq_refl).
Defined.

End Assertions.

Section Computation.

Import Fixture Scenario.

(** The loop body of lines 310-322 stops at its first statement. *)
Lemma check_input_raises E r w :
  check_input E r w = (Raise (NameError "inputs"), w).
Proof. reflexivity. Qed.

Lemma inputs_checked_raise E (rs : list pyval) r w :
  for_each (r :: rs) (check_input E) w = (Raise (NameError "inputs"), w).
Proof. reflexivity. Qed.

Lemma document_with_inputs_raises E config session inst w r rs :
  truthy (kb_document_iri config) = true →
  truthy (kb_document_computation config) = true →
  kb_restrictions E (the (kb_document_computation config)) hasInput = Ok (r :: rs) →
  raised (fst (document E config session inst w)) = true.
Proof.
  intros Hiri Hcomp Hrs. unfold document. rewrite Hiri.
  destruct (truthy_dict (get_settings session "tripper.triplestore")); [|done].
  simpl. unfold bind at 1. unfold Triplestore.
  destruct (kb_connect E _); [done|].
  unfold try_finally.
  match goal with
  | |- context [record E config ?res ?w0] =>
      assert (raised (fst (record E config res w0)) = true) as Hrec;
      [|destruct (record E config res w0) as [[[]|e] w1]; [done|]]
  end.
  - unfold record, bind, save_container.
    destruct (outcome (kb_save_container E _ _)) as [[]|e]; [|done].
    match goal with
    | |- context [(if ?b then ?m else ret tt) ?w0] =>
        destruct ((if b then m else ret tt) w0) as [[[]|e] w1]; [|done]
    end.
    rewrite Hcomp. unfold ts_restrictions. by rewrite Hrs.
  - unfold ts_close. by destruct (outcome (kb_close E)) as [[]|e'].
Qed.

(** X10: a computation with an input cannot be documented. When
    [kb_document_iri] and [kb_document_computation] are set and the
    knowledge graph has at least one has-input restriction for the
    computation, no run of [get] returns, whatever else is configured
    and whatever the other collaborators answer. *)
Theorem computation_with_inputs_fails E self session w r rs :
  let config := configuration (generate_config self) in
  truthy (kb_document_iri config) = true →
  truthy (kb_document_computation config) = true →
  kb_restrictions E (the (kb_document_computation config)) hasInput = Ok (r :: rs) →
  raised (fst (get E self session w)) = true.
Proof.
  intros config Hiri Hcomp Hrs.
  destruct (get E self session w) as [[u|e] w'] eqn:Hget; [|done].
  destruct (get_ok_inv E self session w u w' Hget)
    as (driver & coll & w1 & inst & w2 & w3 & w4 &
        _ & _ & _ & _ & Hdoc & _ & _).
  pose proof (document_with_inputs_raises E config session inst w3 r rs
                Hiri Hcomp Hrs) as Hraised.
  fold config in Hdoc. by rewrite Hdoc in Hraised.
Qed.

Lemma computation_with_inputs_fails_witness :
  truthy (kb_document_iri computed) = true ∧
  truthy (kb_document_computation computed) = true ∧
  kb_restrictions env (the (kb_document_computation computed)) hasInput
    = Ok [PDict [("value", PStr input_individual)]] ∧
  raised (fst (get env (strategy computed) session_kb world)) = true.
Proof.
  split; [reflexivity|]. split; [reflexivity|]. split; [reflexivity|].
  exact (computation_with_inputs_fails env (strategy computed) session_kb world
           (PDict [("value", PStr input_individual)]) []
           eq_refl eq_refl eq_refl).
Defined.

(** X11: the id [get] returns is the id of the collection it obtained
    for the session, and that collection is the one published under
    the id when [get] returns; this is so also when a copy under
    [store_collection_id] was what [get] persisted. *)
Theorem returned_id_is_session_collection E self session w u w' :
  let config := configuration (generate_config self) in
  get E self session w = (Ok u, w') →
  ∃ coll w1,
    get_collection E session (collection_id config) w = (Ok coll, w1) ∧
    update_collection_id u = uuid coll ∧
    collections w' !! update_collection_id u = Some coll.
Proof.
  intros config Hget.
  destruct (get_ok_inv E self session w u w' Hget)
    as (driver & coll & w1 & inst & w2 & w3 & w4 &
        _ & Hc & _ & _ & _ & -> & ->).
  exists coll, w1. split; [done|]. split; [done|].
  simpl. by rewrite lookup_insert_eq.
Qed.

Lemma returned_id_is_session_collection_witness :
  store_collection_id copy1 = Some "copy1" ∧
  ∃ coll w1,
    get_collection env session (collection_id copy1) world = (Ok coll, w1) ∧
    uuid C = uuid coll ∧
    collections (snd (get env (strategy copy1) session world)) !! uuid C = Some coll.
Proof.
  split; [reflexivity|].
  exact (returned_id_is_session_collection env (strategy copy1) session world
           {| update_collection_id := uuid C |}
           (snd (get env (strategy copy1) session world)) eq_refl).
Defined.

End Computation.

Section Closing.

Import Fixture Scenario.

Lemma extends_try_finally (P : KBEvent → Prop) {A} (body : M A) (handler : M unit) :
  extends (Forall P) body → extends (Forall P) handler →
  extends (Forall P) (try_finally body handler).
Proof.
  intros Hb Hh w. unfold try_finally.
  destruct (Hb w) as (evs & Hkb & Hevs).
  destruct (body w) as [r w1]; simpl in *.
  destruct (Hh w1) as (evs' & Hkb' & Hevs').
  exists (evs ++ evs'). split; [|by apply Forall_app].
  destruct (handler w1) as [[[]|e] w2]; simpl in *;
    by rewrite Hkb', Hkb, app_assoc.
Qed.

Lemma document_never_loads E config session inst :
  extends (Forall not_loading) (document E config session inst).
Proof.
  unfold document.
  apply extends_if; [|by apply extends_keeps; [constructor|]].
  apply extends_if; [by apply extends_keeps; [constructor|]|].
  apply extends_bind; [|intros _].
  { intros w. unfold Triplestore. destruct (kb_connect E _).
    - exists []. by rewrite app_nil_r.
    - eexists [_]. by split; [|repeat constructor]. }
  apply extends_try_finally; [|by apply extends_log].
  unfold record.
  apply extends_bind; [by apply extends_log|intros _].
  apply extends_bind; [|intros _].
  - apply extends_if; [|by apply extends_keeps; [constructor|]].
    apply extends_for_each. intros [prop val]. by apply extends_log.
  - apply extends_if; [|by apply extends_keeps; [constructor|]].
    apply extends_bind; [by apply extends_log|intros rs].
    apply extends_for_each. intros r.
    apply extends_keeps; [constructor|]. intros w.
    by rewrite check_input_raises.
Qed.

(** X12: no run of [get] loads a resource description from the
    knowledge graph: among the calls a run adds to the log there is no
    [load_container], with or without a computation to document. *)
Theorem descriptions_never_loaded E self session w :
  Forall not_loading (drop (length (kb w)) (kb (snd (get E self session w)))).
Proof.
  destruct (get_extends E (Forall not_loading) self session) with (w := w)
    as (evs & Hkb & Hevs).
  - constructor.
  - intros inst. apply document_never_loads.
  - by rewrite Hkb, drop_app_length.
Qed.

Lemma descriptions_never_loaded_witness :
  length (drop (length (kb world))
            (kb (snd (get env (strategy computed) session_kb world)))) = 4 ∧
  Forall not_loading
    (drop (length (kb world))
       (kb (snd (get env (strategy computed) session_kb world)))).
Proof.
  split; [reflexivity|].
  exact (descriptions_never_loaded env (strategy computed) session_kb world).
Defined.

Lemma document_close_fails E config session inst w e settings :
  kb_close E = Some e →
  In (Connect settings)
     (drop (length (kb w)) (kb (snd (document E config session inst w)))) →
  fst (document E config session inst w) = Raise e.
Proof.
  intros Hclose. unfold document.
  destruct (truthy (kb_document_iri config)); [|by simpl; rewrite drop_all].
  destruct (truthy_dict (get_settings session "tripper.triplestore"));
    simpl; [|by rewrite drop_all].
  unfold bind at 1 2. unfold Triplestore.
  destruct (kb_connect E _); simpl; [by rewrite drop_all|].
  intros _. unfold try_finally.
  destruct (record E config _ _) as [r1 w1].
  unfold ts_close. by rewrite Hclose.
Qed.

(** X13: a failing [close]. In a run of [get] that opened a connection
    to the knowledge graph, when [close] raises, that exception is what
    [get] raises, whether the documentation went through or raised
    itself. *)
Theorem close_failure_masks E self session w e settings :
  kb_close E = Some e →
  In (Connect settings)
     (drop (length (kb w)) (kb (snd (get E self session w)))) →
  fst (get E self session w) = Raise e.
Proof.
  intros Hclose Hin.
  set (config := configuration (generate_config self)).
  destruct (get_cases E self session w) as
    [(e' & _ & H)|[(driver & e' & w1 & _ & Hc & H)|
     [(driver & coll & w1 & e' & w2 & _ & Hc & Hs & H)|
      (driver & coll & w1 & inst & w2 & _ & Hc & Hs & H)]]];
    rewrite H in Hin |- *; simpl in Hin.
  - by rewrite drop_all in Hin.
  - pose proof (get_collection_keeps E kb session (collection_id config)
                  (fun _ _ => eq_refl) w) as Hk1.
    fold config in Hc. rewrite Hc in Hk1. simpl in Hk1.
    by rewrite Hk1, drop_all in Hin.
  - destruct (files_before_selection E self session w coll w1 e' w2 Hc Hs)
      as (_ & _ & Hk). by rewrite Hk, drop_all in Hin.
  - destruct (files_after_selection E self session w coll w1 inst w2 Hc Hs)
      as (_ & _ & Hk2).
    pose proof (persist_keeps E kb config driver inst (fun _ _ => eq_refl)
                  (fun _ _ => eq_refl) w2) as Hk3.
    assert (∀ w3 rd w4,
              persist E config driver inst w2 = (Ok tt, w3) →
              document E config session inst w3 = (rd, w4) →
              In (Connect settings) (drop (length (kb w)) (kb w4)) →
              rd = Raise e) as Hmask.
    { intros w3 rd w4 Hp3 Hdoc Hin4. rewrite Hp3 in Hk3. simpl in Hk3.
      pose proof (document_close_fails E config session inst w3 e settings Hclose)
        as Hd.
      rewrite Hdoc in Hd. simpl in Hd. apply Hd. congruence. }
    destruct (finish_cases E self session driver coll inst w2) as
      [(e' & w3 & Hp3 & Hf)|[(w3 & e' & w4 & Hp3 & Hdoc & Hf)|
       (w3 & w4 & Hp3 & Hdoc & Hf)]];
      fold config in Hp3, Hf; try fold config in Hdoc;
      fold config in Hin |- *; rewrite Hf in Hin |- *; simpl in Hin.
    + rewrite Hp3 in Hk3. simpl in Hk3. by rewrite Hk3, Hk2, drop_all in Hin.
    + by pose proof (Hmask w3 _ w4 Hp3 Hdoc Hin) as [= ->].
    + by pose proof (Hmask w3 _ w4 Hp3 Hdoc Hin).
Qed.

Lemma close_failure_masks_witness :
  kb_close env_close_fails = Some (ServiceError "close") ∧
  In (Connect kb_settings)
     (drop (length (kb world))
        (kb (snd (get env_close_fails (strategy documented) session_kb world)))) ∧
  fst (get env_close_fails (strategy documented) session_kb world)
    = Raise (ServiceError "close") ∧
  is_Some (files (snd (get env_close_fails (strategy documented) session_kb world))
             !! "/tmp/out.json").
Proof.
  assert (In (Connect kb_settings)
            (drop (length (kb world))
               (kb (snd (get env_close_fails (strategy documented)
                           session_kb world)))))
    as Hin by (vm_compute; left; reflexivity).
  split; [reflexivity|]. split; [exact Hin|].
  split; [|by vm_compute; eexists].
  exact (close_failure_masks env_close_fails (strategy documented) session_kb world
           (ServiceError "close") kb_settings eq_refl Hin).
Defined.

End Closing.

(** ** Properties of the image parse strategy *)

Section ParseImageFacts.

Import ImageScenario.

(** X14: where the key of the image comes from. A key in the session
    has priority: with one, a run of [get] is the same whatever key the
    configuration holds. With a key in neither, [get] raises
    RuntimeError before anything is read, the world being as it was. *)
Theorem image_key_precedence E self session w k' :
  match session !! "key" with
  | Some _ =>
      ParseImage.get E (ParseImage.with_key k' self) (Some session) w =
      ParseImage.get E self (Some session) w
  | None =>
      ParseImage.key (ParseImage.configuration (ParseImage.parse_config self)) = None →
      ParseImage.get E self (Some session) w =
        (ParseImage.Raises
           (ParseImage.RuntimeError "Image parser needs an image to parse"), w)
  end.
Proof.
  destruct (session !! "key") as [k|] eqn:Hkey.
  - unfold ParseImage.get, ParseImage.image_key. by rewrite Hkey.
  - intros Hnone. unfold ParseImage.get, ParseImage.image_key, ParseImage.bind.
    by rewrite Hkey, Hnone.
Qed.

Lemma image_key_precedence_witness :
  session !! "key" = Some "imagekey" ∧
  ParseImage.get env (ParseImage.with_key None strategy) (Some session) world =
  ParseImage.get env strategy (Some session) world.
Proof.
  split; [reflexivity|].
  exact (image_key_precedence env strategy session world None).
Defined.

(** The block under [getfile] changes nothing but files. *)
Lemma image_block E self key suffix w :
  let crop := ParseImage.config_crop
                (ParseImage.image_config_of
                   (ParseImage.configuration (ParseImage.parse_config self))) in
  ∃ r fs,
    ParseImage.getfile E key suffix (fun tmp_file =>
      if ParseImage.truthy_tuple crop then
        ParseImage.bind (ParseImage.read_file tmp_file) (fun file =>
        ParseImage.bind (ParseImage.lift
                           (ParseImage.image_crop E (default [] crop) tmp_file file))
          (fun content => ParseImage.lift (ParseImage.image_open E content)))
      else
        ParseImage.bind (ParseImage.read_file tmp_file) (fun file =>
        ParseImage.lift (ParseImage.image_open E file))) w =
    (r, set_files (fun _ => fs) w).
Proof.
  intros crop. unfold ParseImage.getfile.
  destruct (ParseImage.cache_getfile E key suffix (datacache w) (files w))
    as [[tmp_file|e] fs]; [|by exists (ParseImage.Raises e), fs].
  destruct (ParseImage.truthy_tuple crop);
    unfold ParseImage.bind, ParseImage.read_file, ParseImage.lift; simpl;
    destruct (fs !! tmp_file) as [file|];
    try destruct (ParseImage.image_crop E _ _ _);
    by eexists _, (ParseImage.cache_release E tmp_file fs).
Qed.

(** The outcome of a run of [get] with a session. *)
Lemma parse_outcome E self s w :
  let label := ParseImage.config_image_label
                 (ParseImage.image_config_of
                    (ParseImage.configuration (ParseImage.parse_config self))) in
  match ParseImage.get E self (Some s) w with
  | (ParseImage.Raises _, w') => collections w' = collections w ∧ kb w' = kb w
  | (ParseImage.Return u, w') =>
      ∃ id coll image inst,
        s !! "collection_id" = Some id ∧
        collections w !! id = Some coll ∧
        instances coll !! label = None ∧
        ParseImage.new_instance E "http://onto-ns.com/meta/1.0/Image"
          [ParseImage.height image; ParseImage.width image;
           length (ParseImage.getbands image)]
          (ParseImage.as_3d (ParseImage.asarray image)) = ParseImage.Return inst ∧
        u = {| ParseImage.collection_id := uuid coll |} ∧
        collections w' =
          <[id := ParseImage.with_instance label inst coll]> (collections w) ∧
        kb w' = kb w
  end.
Proof.
  intros label. unfold ParseImage.get.
  unfold ParseImage.bind at 1.
  destruct (ParseImage.image_key self s w) as [[key|e] w0] eqn:Hkey.
  2: { unfold ParseImage.image_key in Hkey.
       destruct (s !! "key"); [done|].
       destruct (ParseImage.key _); [done|]. by injection Hkey as _ <-. }
  assert (w0 = w) as ->.
  { unfold ParseImage.image_key in Hkey. destruct (s !! "key").
    - by injection Hkey.
    - destruct (ParseImage.key _); by injection Hkey. }
  unfold ParseImage.bind at 1. unfold ParseImage.suffix_of.
  destruct (ParseImage.mediaType (ParseImage.parse_config self)) as [mt|]; [|done].
  destruct (ParseImage.split "/" mt !! 1) as [suffix|]; [|done].
  unfold ParseImage.ret at 1.
  unfold ParseImage.bind at 1.
  destruct (image_block E self key suffix w) as (r & fs & ->).
  destruct r as [image|e]; [|done].
  unfold ParseImage.bind at 1. unfold ParseImage.lift at 1.
  destruct (ParseImage.new_instance E _ _ _) as [inst|e] eqn:Hinst; [|done].
  unfold ParseImage.bind at 1. unfold ParseImage.subscript.
  destruct (s !! "collection_id") as [id|] eqn:Hid; [|done]. simpl.
  unfold ParseImage.bind at 1. unfold ParseImage.get_collection. simpl.
  destruct (collections w !! id) as [coll|] eqn:Hcoll; [|done].
  unfold ParseImage.bind, ParseImage.add. subst label.
  cbn [ParseImage.config_image_label ParseImage.image_config_of].
  match goal with
  | |- context [instances coll !! ?l] =>
      destruct (instances coll !! l) eqn:Hlabel; simpl; [done|]
  end.
  by exists id, coll, image, inst.
Qed.

(** X15: a run of [get] changes the collections all or nothing,
    whatever the data cache, the decoders and the instance builder
    answer. A run that raises leaves every collection as it was. A run
    that returns has added, under the configured label, which was free,
    the instance built for the decoded image to the collection the
    session names, and returns the id of that collection; no other
    collection has changed. Neither logs anything to the knowledge
    graph. *)
Theorem parse_all_or_nothing E self session w :
  let label := ParseImage.config_image_label
                 (ParseImage.image_config_of
                    (ParseImage.configuration (ParseImage.parse_config self))) in
  match ParseImage.get E self session w with
  | (ParseImage.Raises _, w') => collections w' = collections w ∧ kb w' = kb w
  | (ParseImage.Return u, w') =>
      ∃ s id coll image inst,
        session = Some s ∧
        s !! "collection_id" = Some id ∧
        collections w !! id = Some coll ∧
        instances coll !! label = None ∧
        ParseImage.new_instance E "http://onto-ns.com/meta/1.0/Image"
          [ParseImage.height image; ParseImage.width image;
           length (ParseImage.getbands image)]
          (ParseImage.as_3d (ParseImage.asarray image)) = ParseImage.Return inst ∧
        u = {| ParseImage.collection_id := uuid coll |} ∧
        collections w' =
          <[id := ParseImage.with_instance label inst coll]> (collections w) ∧
        kb w' = kb w
  end.
Proof.
  intros label. destruct session as [s|]; [|done].
  pose proof (parse_outcome E self s w) as Hrun. fold label in Hrun.
  destruct (ParseImage.get E self (Some s) w) as [[u|e] w']; [|done].
  destruct Hrun
    as (id & coll & image & inst & Hid & Hcoll & Hfree & Hinst & -> & Hw' & Hkb).
  by exists s, id, coll, image, inst.
Qed.

Lemma parse_all_or_nothing_witness :
  ∃ s id coll image inst,
    Some session = Some s ∧
    s !! "collection_id" = Some id ∧
    collections world !! id = Some coll ∧
    instances coll !! "image" = None ∧
    ParseImage.new_instance env "http://onto-ns.com/meta/1.0/Image"
      [ParseImage.height image; ParseImage.width image;
       length (ParseImage.getbands image)]
      (ParseImage.as_3d (ParseImage.asarray image)) = ParseImage.Return inst ∧
    {| ParseImage.collection_id := uuid empty |}
      = {| ParseImage.collection_id := uuid coll |} ∧
    collections (snd (ParseImage.get env strategy (Some session) world)) =
      <[id := ParseImage.with_instance "image" inst coll]> (collections world) ∧
    kb (snd (ParseImage.get env strategy (Some session) world)) = kb world.
Proof.
  pose proof (parse_all_or_nothing env strategy (Some session) world) as H.
  assert (ParseImage.get env strategy (Some session) world =
            (ParseImage.Return {| ParseImage.collection_id := uuid empty |},
             snd (ParseImage.get env strategy (Some session) world)))
    as Hrun by (vm_compute; reflexivity).
  rewrite Hrun in H. exact H.
Defined.

(** X16: parse, then generate. Take a run of the image parser that
    returned, and then a run of the generate strategy that looks up the
    collection the parser's session names (by its own [collection_id]
    or by the session), selects by the parser's label, has a location,
    and in which the driver resolves and the plugin serialises the
    instance the parser built. Then the file at the location holds the
    plugin's bytes for that instance, whether or not documentation is
    asked for and whether it goes through; whenever the run returns it
    returns the collection id the parser returned; and with no
    documentation asked for it returns. *)
Theorem parsed_image_persisted PE pself s w u w1 E self session driver :
  let config := configuration (generate_config self) in
  let image_label :=
    ParseImage.config_image_label
      (ParseImage.image_config_of
         (ParseImage.configuration (ParseImage.parse_config pself))) in
  ParseImage.get PE pself (Some s) w = (ParseImage.Return u, w1) →
  label config = Some image_label →
  image_label ≠ "" →
  match collection_id config with
  | Some id => Some id
  | None => session ≫= session_collection_id
  end = s !! "collection_id" →
  truthy (location config) = true →
  resolve_driver E config w1 = (Ok driver, w1) →
  ∃ image inst,
    ParseImage.new_instance PE "http://onto-ns.com/meta/1.0/Image"
      [ParseImage.height image; ParseImage.width image;
       length (ParseImage.getbands image)]
      (ParseImage.as_3d (ParseImage.asarray image)) = ParseImage.Return inst ∧
    ∀ b, plugin_dump E driver (options config) (AnInstance inst) = Ok b →
      files (snd (get E self session w1)) !! the (location config) = Some b ∧
      (∀ u', fst (get E self session w1) = Ok u' →
             update_collection_id u' = ParseImage.collection_id u) ∧
      (truthy (kb_document_iri config) = false →
       fst (get E self session w1) =
         Ok {| update_collection_id := ParseImage.collection_id u |}).
Proof.
  intros config image_label Hparse Hlabel Hnonempty Hcid Hloc Hdriver.
  pose proof (parse_outcome PE pself s w) as Hrun.
  rewrite Hparse in Hrun. fold image_label in Hrun.
  destruct Hrun
    as (id & coll & image & inst & Hid & Hcoll & Hfree & Hinst & -> & Hw1 & _).
  exists image, inst. split; [done|]. intros b Hdump.
  set (coll' := ParseImage.with_instance image_label inst coll) in *.
  assert (get_collection E session (collection_id config) w1 = (Ok coll', w1))
    as Hgc.
  { unfold get_collection. rewrite Hid in Hcid.
    destruct (collection_id config) as [i|].
    - injection Hcid as ->. unfold lookup_collection.
      by rewrite Hw1, lookup_insert_eq.
    - rewrite Hcid. unfold lookup_collection. by rewrite Hw1, lookup_insert_eq. }
  assert (select E config coll' w1 = (Ok (AnInstance inst), w1)) as Hsel.
  { unfold select, getitem. rewrite Hlabel. simpl.
    apply String.eqb_neq in Hnonempty. rewrite Hnonempty. simpl.
    by rewrite lookup_insert_eq. }
  rewrite (get_selected E self session w1 driver coll' w1 _ w1 Hdriver Hgc Hsel).
  fold config.
  assert (persist E config driver (AnInstance inst) w1 =
            (Ok tt, set_files (insert (the (location config)) b) w1)) as Hpersist.
  { unfold persist, save. by rewrite Hloc, Hdump. }
  destruct (finish_cases E self session driver coll' (AnInstance inst) w1) as
    [(e & w3 & Hp3 & Hf)|[(w3 & e & w4 & Hp3 & Hdoc & Hf)|
     (w3 & w4 & Hp3 & Hdoc & Hf)]];
    fold config in Hp3, Hf; rewrite Hf; rewrite Hpersist in Hp3;
    try discriminate; injection Hp3 as <-.
  - destruct (files_after_persistence E _ _ _ _ _ _ Hdoc) as [Hf4 _].
    simpl. rewrite Hf4. simpl. rewrite lookup_insert_eq.
    split; [done|]. split; [done|].
    intros Hiri. unfold document in Hdoc. fold config in Hdoc.
    by rewrite Hiri in Hdoc.
  - destruct (files_after_persistence E _ _ _ _ _ _ Hdoc) as [Hf4 _].
    simpl. rewrite Hf4. simpl. rewrite lookup_insert_eq.
    split; [done|]. split; [by intros u' [= <-]|done].
Qed.

Lemma parsed_image_persisted_witness :
  let w1 := snd (ParseImage.get env strategy (Some session) world) in
  ParseImage.get env strategy (Some session) world =
    (ParseImage.Return {| ParseImage.collection_id := uuid empty |}, w1) ∧
  ∃ image inst,
    ParseImage.new_instance env "http://onto-ns.com/meta/1.0/Image"
      [ParseImage.height image; ParseImage.width image;
       length (ParseImage.getbands image)]
      (ParseImage.as_3d (ParseImage.asarray image)) = ParseImage.Return inst ∧
    ∀ b, plugin_dump Fixture.env "json" None (AnInstance inst) = Ok b →
      files (snd (get Fixture.env (Fixture.strategy Fixture.to_location)
                    generate_session w1)) !! "/tmp/out.json" = Some b ∧
      (∀ u', fst (get Fixture.env (Fixture.strategy Fixture.to_location)
                    generate_session w1) = Ok u' →
             update_collection_id u' = uuid empty) ∧
      (truthy (kb_document_iri Fixture.to_location) = false →
       fst (get Fixture.env (Fixture.strategy Fixture.to_location)
              generate_session w1) =
         Ok {| update_collection_id := uuid empty |}).
Proof.
  intros w1.
  assert (ParseImage.get env strategy (Some session) world =
            (ParseImage.Return {| ParseImage.collection_id := uuid empty |}, w1))
    as Hparse by (vm_compute; reflexivity).
  split; [exact Hparse|].
  exact (parsed_image_persisted env strategy session world
           {| ParseImage.collection_id := uuid empty |} w1
           Fixture.env (Fixture.strategy Fixture.to_location) generate_session "json"
           Hparse eq_refl ltac:(discriminate) eq_refl eq_refl eq_refl).
Defined.

End ParseImageFacts.

(** ** Media types and generated datamodels *)

Section MediaTypes.

Lemma append_cancel (p a b : string) : p +:+ a = p +:+ b → a = b.
Proof.
  induction p as [|c p IH]; simpl; [done|]. intros [= H]. by apply IH.
Qed.

Lemma to_hex_uint_nonnil (n : N) : N.to_hex_uint n ≠ Hexadecimal.Nil.
Proof.
  destruct n as [|p]; [done|]. apply HexadecimalPos.Unsigned.to_uint_nonnil.
Qed.

Lemma hex_inj (n n' : N) : ParseImage.hex n = ParseImage.hex n' → n = n'.
Proof.
  unfold ParseImage.hex. intros Heq.
  apply HexadecimalN.Unsigned.to_uint_inj.
  pose proof (NilZero.usu _ (to_hex_uint_nonnil n)) as H1.
  pose proof (NilZero.usu _ (to_hex_uint_nonnil n')) as H2.
  rewrite Heq in H1. congruence.
Qed.

(** X17: generated datamodels are told apart by their random bits.
    For one media type, [create_meta] gives datamodels of the same URI
    only when the random numbers drawn are the same: the hexadecimal
    rendering in the URI loses nothing of the number. *)
Theorem generated_uri_determines_bits E media_type data_type data_type' n n' :
  ParseImage.uri (ParseImage.create_meta (ParseImage.with_randbits n E)
                    media_type data_type) =
  ParseImage.uri (ParseImage.create_meta (ParseImage.with_randbits n' E)
                    media_type data_type') →
  n = n'.
Proof.
  unfold ParseImage.create_meta. simpl. intros Huri.
  apply hex_inj.
  by do 4 apply append_cancel in Huri.
Qed.

Lemma generated_uri_determines_bits_witness :
  ParseImage.uri (ParseImage.create_meta
                    (ParseImage.with_randbits 43981 ImageScenario.env)
                    "image/png" "uint8")
    = "http://onto-ns.com/meta/1.0/generated_from_png_abcd" ∧
  (43981 = 43981)%N.
Proof.
  split; [reflexivity|].
  exact (generated_uri_determines_bits ImageScenario.env "image/png" "uint8" "uint16"
           43981 43981 eq_refl).
Defined.

Lemma split_nonempty sep s : ParseImage.split sep s ≠ [].
Proof.
  destruct s as [|c s]; simpl; [done|].
  destruct (Ascii.eqb c sep); [done|]. by destruct (ParseImage.split sep s).
Qed.

Lemma split_without sep s :
  ParseImage.contains sep s = false → ParseImage.split sep s = [s].
Proof.
  induction s as [|c s IH]; simpl; [done|].
  destruct (Ascii.eqb c sep); simpl; [done|]. intros H. by rewrite IH.
Qed.

Lemma split_with sep s :
  ParseImage.contains sep s = true →
  ∃ a b rest, ParseImage.split sep s = a :: b :: rest.
Proof.
  induction s as [|c s IH]; simpl; [done|].
  destruct (Ascii.eqb c sep); simpl.
  - intros _. pose proof (split_nonempty sep s) as Hne.
    destruct (ParseImage.split sep s) as [|b rest]; [done|]. by exists "", b, rest.
  - intros H. destruct (IH H) as (a & b & rest & ->). by exists (String c a), b, rest.
Qed.

Lemma rpartition_tail_without sep s :
  ParseImage.contains sep s = false → ParseImage.rpartition_tail sep s = s.
Proof.
  destruct s as [|c s]; simpl; [done|].
  destruct (Ascii.eqb c sep); simpl; [done|]. by intros ->.
Qed.

(** The last of the parts [split] gives is what [rpartition] gives as
    its tail. *)
Lemma last_split sep s :
  last (ParseImage.split sep s) = Some (ParseImage.rpartition_tail sep s).
Proof.
  induction s as [|c s IH]; simpl; [done|].
  destruct (ParseImage.contains sep s) eqn:Hc.
  - destruct (split_with sep s Hc) as (a & b & rest & Hs). rewrite Hs in IH |- *.
    by destruct (Ascii.eqb c sep).
  - rewrite (split_without sep s Hc). by destruct (Ascii.eqb c sep).
Qed.

(** X18: the suffix of the temporary file and the format of a generated
    datamodel. For a media type with one ["/"], the suffix [get] takes
    (the second part of the split) is the image format [create_meta]
    writes into the URI (the tail of the partition at the last ["/"]).
    For a media type without ["/"], [get] fails with IndexError where
    [create_meta] takes the whole media type as the format. *)
Theorem suffix_and_image_format mt w :
  match ParseImage.split "/" mt with
  | [_] =>
      ParseImage.suffix_of (Some mt) w = (ParseImage.Raises ParseImage.IndexError, w) ∧
      ParseImage.rpartition_tail "/" mt = mt
  | [_; b] =>
      ParseImage.suffix_of (Some mt) w = (ParseImage.Return b, w) ∧
      ParseImage.rpartition_tail "/" mt = b
  | _ => True
  end.
Proof.
  pose proof (last_split "/" mt) as Hlast.
  unfold ParseImage.suffix_of.
  destruct (ParseImage.split "/" mt) as [|a [|b [|c rest]]] eqn:Hsplit; try done.
  - split; [done|].
    destruct (ParseImage.contains "/" mt) eqn:Hc.
    + destruct (split_with "/" mt Hc) as (a' & b' & rest' & Hs). congruence.
    + by apply rpartition_tail_without.
  - split; [done|]. simpl in Hlast. congruence.
Qed.

Lemma suffix_and_image_format_witness :
  ParseImage.split "/" "image/png" = ["image"; "png"] ∧
  ParseImage.suffix_of (Some "image/png") ImageScenario.world
    = (ParseImage.Return "png", ImageScenario.world) ∧
  ParseImage.rpartition_tail "/" "image/png" = "png".
Proof.
  split; [reflexivity|].
  exact (suffix_and_image_format "image/png" ImageScenario.world).
Defined.

End MediaTypes.
